(** * AutoAgent web client: the session controller of [App.jsx]

    A shallow embedding of the React component [App] of
    [frontend/src/App.jsx] (and of its earlier revision, the second source
    file of the repository, in [Module Earlier]).

    The component is a set of state cells ([useState]), asynchronous
    handlers that suspend at the call they await, and a render function.
    Each handler is cut at its [await]: the part before it runs when the user
    event fires, the part after it when the call settles.  A run of the
    client is a sequence of such atomic segments, each followed by a render. *)

From Stdlib Require Import List Bool Arith NArith ZArith Lia String Ascii.
From Stdlib Require Import DecimalString.
Import ListNotations.

Set Implicit Arguments.

(** ** JavaScript strings

    A JavaScript string is a sequence of UTF-16 code units. *)

Definition jsstring := list N.

(** An ASCII literal of the source. *)
Definition lit (s : string) : jsstring :=
  map N_of_ascii (list_ascii_of_string s).

(** U+2026, the ellipsis the source uses in its labels. *)
Definition ellipsis : jsstring := [8230%N].

Fixpoint str_eqb (a b : jsstring) : bool :=
  match a, b with
  | [], [] => true
  | x :: a', y :: b' => N.eqb x y && str_eqb a' b'
  | _, _ => false
  end.

(** Truthiness of a string: every string but the empty one. *)
Definition truthy (s : jsstring) : bool :=
  match s with [] => false | _ :: _ => true end.

(** [a || b] where [a] may be undefined. *)
Definition or_else (a : option jsstring) (b : jsstring) : jsstring :=
  match a with
  | Some x => if truthy x then x else b
  | None => b
  end.

(** [Array.prototype.join]. *)
Fixpoint join (sep : jsstring) (l : list jsstring) : jsstring :=
  match l with
  | [] => []
  | [x] => x
  | x :: rest => x ++ sep ++ join sep rest
  end.

(** A length printed inside a template literal. *)
Definition show_nat (n : nat) : jsstring :=
  lit (NilZero.string_of_uint (Nat.to_uint n)).

(** The code units [String.prototype.trim] strips: ECMAScript's WhiteSpace
    (TAB, VT, FF, SP, NBSP, ZWNBSP and the category Zs) and LineTerminator
    (LF, CR, LS, PS). *)
Definition is_ws (c : N) : bool :=
  ((9 <=? c) && (c <=? 13) ||
   (c =? 32) || (c =? 160) || (c =? 5760) ||
   (8192 <=? c) && (c <=? 8202) ||
   (c =? 8232) || (c =? 8233) || (c =? 8239) || (c =? 8287) ||
   (c =? 12288) || (c =? 65279))%N.

Fixpoint trimStart (s : jsstring) : jsstring :=
  match s with
  | [] => []
  | c :: rest => if is_ws c then trimStart rest else s
  end.

Definition trimEnd (s : jsstring) : jsstring := rev (trimStart (rev s)).

Definition trim (s : jsstring) : jsstring := trimEnd (trimStart s).

(** ** Data on the wire *)

(** A message [{ role, content }]; [role] is an open string tag. *)
Record Message := { role : jsstring; content : jsstring }.

(** The value of a [messages] field: an array, or nothing (the field is
    absent or null). *)
Definition JsMsgs := option (list Message).

(** The body of [GET /api/state]. *)
Record StateData := {
  st_initialized : bool;
  st_messages : JsMsgs;
  st_available_agents : option (list jsstring);
  st_agent_name : option jsstring
}.

(** The body of [POST /api/chat]. *)
Record ChatData := {
  chat_response : jsstring;
  chat_agent_name : option jsstring;
  chat_messages : JsMsgs
}.

(** The body of [POST /api/upload]. *)
Record UploadData := { uploaded_files : list jsstring }.

(** What a rejected axios call carries: [err.response?.data?.detail] and
    [err.message]. *)
Record AxiosError := { detail : option jsstring; message : jsstring }.

(** [err.response?.data?.detail || err.message]. *)
Definition error_text (err : AxiosError) : jsstring :=
  or_else (detail err) (message err).

(** A number as the port cell holds it: [parseInt] yields an integer or NaN. *)
Inductive JsNum := NaN | Int (z : Z).

Record Config := {
  container_name : jsstring;
  port : JsNum;
  test_pull_name : jsstring;
  git_clone : bool;
  local_env : bool;
  model : jsstring
}.

Record File := { file_name : jsstring; file_bytes : list N }.

(** A [FormData]: the appended (field, value) pairs, in order. *)
Definition FormData := list (jsstring * File).

(** ** Effects

    What a handler segment does besides writing state cells. *)

Inductive Request :=
| GetState
| PostInit (body : Config)
| PostChat (body : jsstring)
| PostUpload (body : FormData)
| ClipboardWrite (text : jsstring).

(** Who called [checkState]: the mount effect, the Refresh button, or
    [handleInit] (which awaits it and then goes on). *)
Inductive Caller := FromMount | FromRefresh | FromInit.

(** The rest of a handler, waiting at its [await]. *)
Inductive Continuation :=
| KCheckState (c : Caller)
| KHandleInit
| KHandleSend
| KHandleUpload
| KHandleCopy.

Inductive Effect :=
| PreventDefault
| Await (req : Request) (k : Continuation)
| Alert (text : jsstring)
| ConsoleError (text : jsstring).

(** ** The state cells of [App] *)

Record State := {
  initialized : bool;
  config : Config;
  loading : bool;
  messages : JsMsgs;
  input : jsstring;
  availableAgents : list jsstring;
  currentAgent : option jsstring;
  uploading : bool;
  statusMessage : jsstring;
  errorMessage : jsstring
}.

(** The arguments of the [useState] calls. *)
Definition default_config : Config :=
  {| container_name := lit "auto_agent";
     port := Int 12347;
     test_pull_name := lit "autoagent_mirror";
     git_clone := true;
     local_env := false;
     model := lit "gpt-4o-2024-08-06" |}.

Definition initial_state : State :=
  {| initialized := false;
     config := default_config;
     loading := false;
     messages := Some [];
     input := [];
     availableAgents := [];
     currentAgent := None;
     uploading := false;
     statusMessage := [];
     errorMessage := [] |}.

(** A handler segment over state cells [S]: it reads and writes the cells
    and emits effects. *)
Definition Action (S : Type) := S -> S * list Effect.

Section Actions.
Variable S : Type.

Definition skip : Action S := fun s => (s, []).

Definition emit (e : Effect) : Action S := fun s => (s, [e]).

Definition andThen (a b : Action S) : Action S :=
  fun s => let (s1, e1) := a s in let (s2, e2) := b s1 in (s2, e1 ++ e2).

(** The values the handler's closure sees. *)
Definition reading (f : S -> Action S) : Action S := fun s => f s s.

Definition write (f : S -> S) : Action S := fun s => (f s, []).
End Actions.

Arguments skip {S}.
Arguments emit {S} e.

Declare Scope act_scope.
Delimit Scope act_scope with act.
Bind Scope act_scope with Action.
Notation "a ;; b" := (andThen a b) (at level 61, right associativity) : act_scope.
Local Open Scope act_scope.

Definition Act := Action State.

Definition setInitialized (v : bool) : Act := write (fun s =>
  {| initialized := v; config := config s; loading := loading s;
     messages := messages s; input := input s;
     availableAgents := availableAgents s; currentAgent := currentAgent s;
     uploading := uploading s; statusMessage := statusMessage s;
     errorMessage := errorMessage s |}).

Definition setConfig (v : Config) : Act := write (fun s =>
  {| initialized := initialized s; config := v; loading := loading s;
     messages := messages s; input := input s;
     availableAgents := availableAgents s; currentAgent := currentAgent s;
     uploading := uploading s; statusMessage := statusMessage s;
     errorMessage := errorMessage s |}).

Definition setLoading (v : bool) : Act := write (fun s =>
  {| initialized := initialized s; config := config s; loading := v;
     messages := messages s; input := input s;
     availableAgents := availableAgents s; currentAgent := currentAgent s;
     uploading := uploading s; statusMessage := statusMessage s;
     errorMessage := errorMessage s |}).

(** [setMessages(prev => f(prev))]; [setMessages(v)] is the constant [f]. *)
Definition updateMessages (f : JsMsgs -> JsMsgs) : Act := write (fun s =>
  {| initialized := initialized s; config := config s; loading := loading s;
     messages := f (messages s); input := input s;
     availableAgents := availableAgents s; currentAgent := currentAgent s;
     uploading := uploading s; statusMessage := statusMessage s;
     errorMessage := errorMessage s |}).

Definition setMessages (v : JsMsgs) : Act := updateMessages (fun _ => v).

Definition setInput (v : jsstring) : Act := write (fun s =>
  {| initialized := initialized s; config := config s; loading := loading s;
     messages := messages s; input := v;
     availableAgents := availableAgents s; currentAgent := currentAgent s;
     uploading := uploading s; statusMessage := statusMessage s;
     errorMessage := errorMessage s |}).

Definition setAvailableAgents (v : list jsstring) : Act := write (fun s =>
  {| initialized := initialized s; config := config s; loading := loading s;
     messages := messages s; input := input s;
     availableAgents := v; currentAgent := currentAgent s;
     uploading := uploading s; statusMessage := statusMessage s;
     errorMessage := errorMessage s |}).

Definition setCurrentAgent (v : option jsstring) : Act := write (fun s =>
  {| initialized := initialized s; config := config s; loading := loading s;
     messages := messages s; input := input s;
     availableAgents := availableAgents s; currentAgent := v;
     uploading := uploading s; statusMessage := statusMessage s;
     errorMessage := errorMessage s |}).

Definition setUploading (v : bool) : Act := write (fun s =>
  {| initialized := initialized s; config := config s; loading := loading s;
     messages := messages s; input := input s;
     availableAgents := availableAgents s; currentAgent := currentAgent s;
     uploading := v; statusMessage := statusMessage s;
     errorMessage := errorMessage s |}).

Definition setStatusMessage (v : jsstring) : Act := write (fun s =>
  {| initialized := initialized s; config := config s; loading := loading s;
     messages := messages s; input := input s;
     availableAgents := availableAgents s; currentAgent := currentAgent s;
     uploading := uploading s; statusMessage := v;
     errorMessage := errorMessage s |}).

Definition setErrorMessage (v : jsstring) : Act := write (fun s =>
  {| initialized := initialized s; config := config s; loading := loading s;
     messages := messages s; input := input s;
     availableAgents := availableAgents s; currentAgent := currentAgent s;
     uploading := uploading s; statusMessage := statusMessage s;
     errorMessage := v |}).

(** ** The handlers of [App.jsx]

    Every asynchronous handler is given as the segment that runs up to its
    [await] ([_begin]), the segment that runs when the awaited call resolves
    ([_resolved]) and the handler's [catch] block ([_rejected]). *)

(** [checkState], up to [await axios.get]. *)
Definition checkState_begin (c : Caller) : Act :=
  emit (Await GetState (KCheckState c)).

(** [x || []] for a field that holds an array or nothing. *)
Definition or_empty {A} (x : option (list A)) : list A :=
  match x with Some l => l | None => [] end.

Definition checkState_resolved (res : StateData) : Act :=
  if st_initialized res then
    setInitialized true ;;
    setMessages (Some (or_empty (st_messages res))) ;;
    setAvailableAgents (or_empty (st_available_agents res)) ;;
    setCurrentAgent (st_agent_name res)
  else skip.

Definition checkState_rejected (err : AxiosError) : Act :=
  emit (ConsoleError (lit "Failed to check state")) ;;
  setErrorMessage (lit "Could not refresh the session state.").

(** [handleInit], up to [await axios.post(init)]. *)
Definition handleInit_begin : Act :=
  emit PreventDefault ;;
  setLoading true ;;
  reading (fun s => emit (Await (PostInit (config s)) KHandleInit)).

(** The init call resolved: [await checkState()]. *)
Definition handleInit_resolved : Act := checkState_begin FromInit.

(** [checkState] has returned (it swallows its own failure): the rest of
    the [try] block and the statement after it. *)
Definition handleInit_finish : Act :=
  setStatusMessage (lit "Session initialized successfully.") ;;
  setLoading false.

Definition handleInit_rejected (err : AxiosError) : Act :=
  emit (Alert (lit "Initialization failed: " ++ error_text err)) ;;
  setErrorMessage (lit "Initialization failed. Please verify your settings.") ;;
  setLoading false.

(** [[...prev, userMsg]].  Spreading [undefined] throws inside the render
    that applies the updater; [render] below already fails on such a cell,
    so the cell stays as it is. *)
Definition spread_append (userMsg : Message) (prev : JsMsgs) : JsMsgs :=
  match prev with
  | Some l => Some (l ++ [userMsg])
  | None => None
  end.

(** [handleSend], up to [await axios.post(chat)]. *)
Definition handleSend_begin : Act :=
  emit PreventDefault ;;
  reading (fun s =>
    if negb (truthy (trim (input s))) then skip
    else
      let userMsg := {| role := lit "user"; content := input s |} in
      updateMessages (spread_append userMsg) ;;
      setInput [] ;;
      setLoading true ;;
      emit (Await (PostChat (content userMsg)) KHandleSend)).

Definition handleSend_resolved (res : ChatData) : Act :=
  setMessages (chat_messages res) ;;
  setCurrentAgent (chat_agent_name res) ;;
  setStatusMessage (lit "Response received.") ;;
  setLoading false.

Definition handleSend_rejected (err : AxiosError) : Act :=
  emit (Alert (lit "Message failed: " ++ error_text err)) ;;
  setErrorMessage (lit "Message failed. Please try again.") ;;
  setLoading false.

(** The [for] loop of [handleUpload]: one [append('files', files[i])] per
    index. *)
Fixpoint appendFiles (formData : FormData) (files : list File) : FormData :=
  match files with
  | [] => formData
  | f :: rest => appendFiles (formData ++ [(lit "files", f)]) rest
  end.

(** [handleUpload], up to [await axios.post(upload)].  [files] is
    [e.target.files]: a list, or nothing. *)
Definition handleUpload_begin (files : option (list File)) : Act :=
  match files with
  | None => skip
  | Some [] => skip
  | Some fs =>
      let formData := appendFiles [] fs in
      setUploading true ;;
      emit (Await (PostUpload formData) KHandleUpload)
  end.

Definition handleUpload_resolved (res : UploadData) : Act :=
  emit (Alert (lit "Uploaded: " ++ join (lit ", ") (uploaded_files res))) ;;
  setStatusMessage
    (lit "Uploaded " ++ show_nat (List.length (uploaded_files res)) ++ lit " file(s).") ;;
  setUploading false.

Definition handleUpload_rejected (err : AxiosError) : Act :=
  emit (Alert (lit "Upload failed: " ++ error_text err)) ;;
  setErrorMessage (lit "Upload failed. Please retry.") ;;
  setUploading false.

Definition handleCopyMessage_begin (text : jsstring) : Act :=
  emit (Await (ClipboardWrite text) KHandleCopy).

Definition handleCopyMessage_resolved : Act :=
  setStatusMessage (lit "Message copied to clipboard.").

Definition handleCopyMessage_rejected (err : AxiosError) : Act :=
  emit (ConsoleError (lit "Copy failed")) ;;
  setErrorMessage (lit "Unable to copy.").

(** ** Rendering *)

Inductive Banner :=
| BannerError (text : jsstring)
| BannerInfo (text : jsstring)
| BannerMuted (text : jsstring).

Definition renderStatus (s : State) : option Banner :=
  if truthy (errorMessage s) then Some (BannerError (errorMessage s))
  else if truthy (statusMessage s) then Some (BannerInfo (statusMessage s))
  else if loading s || uploading s
       then Some (BannerMuted (lit "Working on your request..."))
  else None.

Definition formatRoleLabel (r : jsstring) : jsstring :=
  if str_eqb r (lit "assistant") then lit "Assistant"
  else if str_eqb r (lit "system") then lit "System"
  else if str_eqb r (lit "tool") then lit "Tool"
  else lit "You".

(** One row of the chat area. *)
Record MessageRow := {
  row_class : jsstring;
  row_label : jsstring;
  row_content : jsstring
}.

Definition renderMessage (msg : Message) : MessageRow :=
  {| row_class := lit "message " ++ role msg;
     row_label := formatRoleLabel (role msg);
     row_content := content msg |}.

Record SetupView := {
  form_values : Config;
  launch_disabled : bool;
  launch_label : jsstring
}.

Record ChatView := {
  agent_pill : jsstring;
  count_pill : nat;
  status_live : bool;
  status_pill : jsstring;
  no_agents_chip : bool;
  agent_chips : list jsstring;
  refresh_disabled : bool;
  banner : option Banner;
  empty_state : bool;
  rows : list MessageRow;
  typing : bool;
  input_value : jsstring;
  input_disabled : bool;
  send_disabled : bool;
  upload_disabled : bool;
  upload_label : jsstring
}.

Inductive View := VSetup (v : SetupView) | VChat (v : ChatView).

(** The body of [App] after the hooks.  The chat view reads
    [messages.length] and maps over [messages]: with an undefined cell the
    render throws, which is [None]. *)
Definition render (s : State) : option View :=
  if negb (initialized s) then
    Some (VSetup
      {| form_values := config s;
         launch_disabled := loading s;
         launch_label := if loading s
                         then lit "Initializing session" ++ ellipsis
                         else lit "Launch session" |})
  else
    match messages s with
    | None => None
    | Some msgs =>
      Some (VChat
        {| agent_pill := or_else (currentAgent s) (lit "None");
           count_pill := List.length msgs;
           status_live := uploading s || loading s;
           status_pill := if uploading s then lit "Uploading files" ++ ellipsis
                          else if loading s then lit "Working" ++ ellipsis
                          else lit "Ready";
           no_agents_chip := Nat.eqb (List.length (availableAgents s)) 0;
           agent_chips := availableAgents s;
           refresh_disabled := loading s;
           banner := renderStatus s;
           empty_state := Nat.eqb (List.length msgs) 0;
           rows := map renderMessage msgs;
           typing := loading s || uploading s;
           input_value := input s;
           input_disabled := loading s;
           send_disabled := loading s;
           upload_disabled := uploading s;
           upload_label := if uploading s then lit "Uploading..."
                           else lit "Upload files" |})
    end.

(** The message rows on screen, when the chat view is. *)
Definition displayed (s : State) : option (list MessageRow) :=
  match render s with
  | Some (VChat v) => Some (rows v)
  | _ => None
  end.

(** The controller's state as the status pill of the chat header names it. *)
Definition Ready (s : State) : Prop :=
  exists v, render s = Some (VChat v) /\ status_pill v = lit "Ready".

(** ** The running client

    The cells, the calls in flight (each with the continuation that waits
    for it) and whether the component is still mounted: React unmounts the
    tree when a render throws, and no control is on screen afterwards. *)

Record Client := {
  cells : State;
  inflight : list (Request * Continuation);
  alive : bool
}.

(** What the user can do to the page. *)
Inductive UserEvent :=
| ChangeContainerName (v : jsstring)
| ChangePort (v : JsNum)
| ChangeTestPullName (v : jsstring)
| ChangeModel (v : jsstring)
| ChangeGitClone (v : bool)
| ChangeLocalEnv (v : bool)
| SubmitSetup
| ChangeInput (v : jsstring)
| SubmitMessage
| SelectFiles (files : option (list File))
| ClickRefresh
| ClickClear
| ClickCopy (idx : nat).

(** What a settled call delivers. *)
Inductive Body :=
| StateBody (res : StateData)
| InitBody
| ChatBody (res : ChatData)
| UploadBody (res : UploadData)
| CopyDone.

Inductive Outcome := Resolved (b : Body) | Rejected (err : AxiosError).

Inductive Label :=
| User (e : UserEvent)
| Settle (idx : nat) (o : Outcome).

(** The controls of a view: a disabled control fires nothing, a form whose
    submit button is disabled is not submitted, and the label of a disabled
    file input opens no dialog. *)
Definition enabled (v : View) (e : UserEvent) : bool :=
  match v, e with
  | VSetup _, (ChangeContainerName _ | ChangePort _ | ChangeTestPullName _
              | ChangeModel _ | ChangeGitClone _ | ChangeLocalEnv _) => true
  | VSetup f, SubmitSetup => negb (launch_disabled f)
  | VChat c, ChangeInput _ => negb (input_disabled c)
  | VChat c, SubmitMessage => negb (send_disabled c)
  | VChat c, SelectFiles _ => negb (upload_disabled c)
  | VChat c, ClickRefresh => negb (refresh_disabled c)
  | VChat c, ClickClear => true
  | VChat c, ClickCopy idx => Nat.ltb idx (List.length (rows c))
  | _, _ => false
  end.

(** The [onChange], [onSubmit] and [onClick] properties of the JSX. *)
Definition handle (e : UserEvent) : Act :=
  match e with
  | ChangeContainerName v => reading (fun s => let c := config s in
      setConfig {| container_name := v; port := port c;
                   test_pull_name := test_pull_name c; git_clone := git_clone c;
                   local_env := local_env c; model := model c |})
  | ChangePort v => reading (fun s => let c := config s in
      setConfig {| container_name := container_name c; port := v;
                   test_pull_name := test_pull_name c; git_clone := git_clone c;
                   local_env := local_env c; model := model c |})
  | ChangeTestPullName v => reading (fun s => let c := config s in
      setConfig {| container_name := container_name c; port := port c;
                   test_pull_name := v; git_clone := git_clone c;
                   local_env := local_env c; model := model c |})
  | ChangeModel v => reading (fun s => let c := config s in
      setConfig {| container_name := container_name c; port := port c;
                   test_pull_name := test_pull_name c; git_clone := git_clone c;
                   local_env := local_env c; model := v |})
  | ChangeGitClone v => reading (fun s => let c := config s in
      setConfig {| container_name := container_name c; port := port c;
                   test_pull_name := test_pull_name c; git_clone := v;
                   local_env := local_env c; model := model c |})
  | ChangeLocalEnv v => reading (fun s => let c := config s in
      setConfig {| container_name := container_name c; port := port c;
                   test_pull_name := test_pull_name c; git_clone := git_clone c;
                   local_env := v; model := model c |})
  | SubmitSetup => handleInit_begin
  | ChangeInput v => setInput v
  | SubmitMessage => handleSend_begin
  | SelectFiles files => handleUpload_begin files
  | ClickRefresh => checkState_begin FromRefresh
  | ClickClear => setMessages (Some [])
  | ClickCopy idx => reading (fun s =>
      match nth_error (or_empty (messages s)) idx with
      | Some msg => handleCopyMessage_begin (content msg)
      | None => skip
      end)
  end.

(** What runs after [checkState] returns to its caller. *)
Definition after_checkState (c : Caller) : Act :=
  match c with
  | FromInit => handleInit_finish
  | FromMount | FromRefresh => skip
  end.

(** The continuation [k] applied to the outcome of its call; [None] when
    the body is not one its endpoint sends. *)
Definition settle (k : Continuation) (o : Outcome) : option Act :=
  match k, o with
  | KCheckState c, Resolved (StateBody res) =>
      Some (checkState_resolved res ;; after_checkState c)
  | KCheckState c, Rejected err =>
      Some (checkState_rejected err ;; after_checkState c)
  | KHandleInit, Resolved InitBody => Some handleInit_resolved
  | KHandleInit, Rejected err => Some (handleInit_rejected err)
  | KHandleSend, Resolved (ChatBody res) => Some (handleSend_resolved res)
  | KHandleSend, Rejected err => Some (handleSend_rejected err)
  | KHandleUpload, Resolved (UploadBody res) => Some (handleUpload_resolved res)
  | KHandleUpload, Rejected err => Some (handleUpload_rejected err)
  | KHandleCopy, Resolved CopyDone => Some handleCopyMessage_resolved
  | KHandleCopy, Rejected err => Some (handleCopyMessage_rejected err)
  | _, _ => None
  end.

(** The calls a segment has started. *)
Fixpoint awaits (effs : list Effect) : list (Request * Continuation) :=
  match effs with
  | [] => []
  | Await req k :: rest => (req, k) :: awaits rest
  | _ :: rest => awaits rest
  end.

Definition remove_nth {A} (i : nat) (l : list A) : list A :=
  firstn i l ++ skipn (S i) l.

Definition renders (s : State) : bool :=
  match render s with Some _ => true | None => false end.

(** A segment has run on client [c], which had [pending] calls left. *)
Definition after (c : Client) (pending : list (Request * Continuation))
    (r : State * list Effect) : Client * list Effect :=
  ({| cells := fst r;
      inflight := pending ++ awaits (snd r);
      alive := alive c && renders (fst r) |}, snd r).

(** One atomic step: a user event on an enabled control of the current
    view, or the settling of the call at position [idx]. *)
Definition exec (c : Client) (l : Label) : option (Client * list Effect) :=
  match l with
  | User e =>
      if alive c then
        match render (cells c) with
        | Some v =>
            if enabled v e
            then Some (after c (inflight c) (handle e (cells c)))
            else None
        | None => None
        end
      else None
  | Settle idx o =>
      match nth_error (inflight c) idx with
      | Some (_, k) =>
          match settle k o with
          | Some act =>
              Some (after c (remove_nth idx (inflight c)) (act (cells c)))
          | None => None
          end
      | None => None
      end
  end.

Fixpoint run (c : Client) (tr : list Label) : option Client :=
  match tr with
  | [] => Some c
  | l :: rest =>
      match exec c l with
      | Some (c', _) => run c' rest
      | None => None
      end
  end.

(** The client after its first render and the mount effect, which calls
    [checkState]. *)
Definition mounted : Client :=
  fst (after {| cells := initial_state; inflight := []; alive := true |} []
             (checkState_begin FromMount initial_state)).

Definition reachable (c : Client) : Prop := exists tr, run mounted tr = Some c.

(** The calls to the backend among the effects of a segment (writing to
    the clipboard is awaited too, but is no network call). *)
Definition is_http (req : Request) : bool :=
  match req with ClipboardWrite _ => false | _ => true end.

Definition network_calls (effs : list Effect) : list Request :=
  filter is_http (map fst (awaits effs)).

(** ** The earlier revision of the component

    The second source file is the same component before the status banner,
    the toolbar and [formatRoleLabel] were added.  Its handlers are embedded
    the same way, over its own cells. *)

Module Earlier.

Record State := {
  initialized : bool;
  config : Config;
  loading : bool;
  messages : JsMsgs;
  input : jsstring;
  availableAgents : list jsstring;
  currentAgent : option jsstring;
  uploading : bool
}.

Definition initial_state : State :=
  {| initialized := false;
     config := default_config;
     loading := false;
     messages := Some [];
     input := [];
     availableAgents := [];
     currentAgent := None;
     uploading := false |}.

Definition Act := Action State.

Definition setInitialized (v : bool) : Act := write (fun s =>
  {| initialized := v; config := config s; loading := loading s;
     messages := messages s; input := input s;
     availableAgents := availableAgents s; currentAgent := currentAgent s;
     uploading := uploading s |}).

Definition setLoading (v : bool) : Act := write (fun s =>
  {| initialized := initialized s; config := config s; loading := v;
     messages := messages s; input := input s;
     availableAgents := availableAgents s; currentAgent := currentAgent s;
     uploading := uploading s |}).

Definition updateMessages (f : JsMsgs -> JsMsgs) : Act := write (fun s =>
  {| initialized := initialized s; config := config s; loading := loading s;
     messages := f (messages s); input := input s;
     availableAgents := availableAgents s; currentAgent := currentAgent s;
     uploading := uploading s |}).

Definition setMessages (v : JsMsgs) : Act := updateMessages (fun _ => v).

Definition setInput (v : jsstring) : Act := write (fun s =>
  {| initialized := initialized s; config := config s; loading := loading s;
     messages := messages s; input := v;
     availableAgents := availableAgents s; currentAgent := currentAgent s;
     uploading := uploading s |}).

Definition setAvailableAgents (v : list jsstring) : Act := write (fun s =>
  {| initialized := initialized s; config := config s; loading := loading s;
     messages := messages s; input := input s;
     availableAgents := v; currentAgent := currentAgent s;
     uploading := uploading s |}).

Definition setCurrentAgent (v : option jsstring) : Act := write (fun s =>
  {| initialized := initialized s; config := config s; loading := loading s;
     messages := messages s; input := input s;
     availableAgents := availableAgents s; currentAgent := v;
     uploading := uploading s |}).

Definition setUploading (v : bool) : Act := write (fun s =>
  {| initialized := initialized s; config := config s; loading := loading s;
     messages := messages s; input := input s;
     availableAgents := availableAgents s; currentAgent := currentAgent s;
     uploading := v |}).

Definition checkState_begin (c : Caller) : Act :=
  emit (Await GetState (KCheckState c)).

Definition checkState_resolved (res : StateData) : Act :=
  if st_initialized res then
    setInitialized true ;;
    setMessages (Some (or_empty (st_messages res))) ;;
    setAvailableAgents (or_empty (st_available_agents res)) ;;
    setCurrentAgent (st_agent_name res)
  else skip.

Definition checkState_rejected (err : AxiosError) : Act :=
  emit (ConsoleError (lit "Failed to check state")).

Definition handleInit_begin : Act :=
  emit PreventDefault ;;
  setLoading true ;;
  reading (fun s => emit (Await (PostInit (config s)) KHandleInit)).

Definition handleInit_resolved : Act := checkState_begin FromInit.

Definition handleInit_finish : Act := setLoading false.

Definition handleInit_rejected (err : AxiosError) : Act :=
  emit (Alert (lit "Initialization failed: " ++ error_text err)) ;;
  setLoading false.

Definition handleSend_begin : Act :=
  emit PreventDefault ;;
  reading (fun s =>
    if negb (truthy (trim (input s))) then skip
    else
      let userMsg := {| role := lit "user"; content := input s |} in
      updateMessages (spread_append userMsg) ;;
      setInput [] ;;
      setLoading true ;;
      emit (Await (PostChat (content userMsg)) KHandleSend)).

Definition handleSend_resolved (res : ChatData) : Act :=
  setMessages (chat_messages res) ;;
  setCurrentAgent (chat_agent_name res) ;;
  setLoading false.

Definition handleSend_rejected (err : AxiosError) : Act :=
  emit (Alert (lit "Message failed: " ++ error_text err)) ;;
  setLoading false.

Definition handleUpload_begin (files : option (list File)) : Act :=
  match files with
  | None => skip
  | Some [] => skip
  | Some fs =>
      let formData := appendFiles [] fs in
      setUploading true ;;
      emit (Await (PostUpload formData) KHandleUpload)
  end.

Definition handleUpload_resolved (res : UploadData) : Act :=
  emit (Alert (lit "Uploaded: " ++ join (lit ", ") (uploaded_files res))) ;;
  setUploading false.

Definition handleUpload_rejected (err : AxiosError) : Act :=
  emit (Alert (lit "Upload failed: " ++ error_text err)) ;;
  setUploading false.

(** [msg.role === 'user' ? 'You' : msg.role]. *)
Definition roleLabel (r : jsstring) : jsstring :=
  if str_eqb r (lit "user") then lit "You" else r.

Definition renderMessage (msg : Message) : MessageRow :=
  {| row_class := lit "message " ++ role msg;
     row_label := roleLabel (role msg) ++ lit ": ";
     row_content := content msg |}.

Record SetupView := {
  form_values : Config;
  start_disabled : bool;
  start_label : jsstring
}.

Record ChatView := {
  agent_status : jsstring;
  rows : list MessageRow;
  input_value : jsstring;
  input_disabled : bool;
  send_disabled : bool;
  upload_disabled : bool;
  upload_label : jsstring;
  agents_list : jsstring
}.

Inductive View := VSetup (v : SetupView) | VChat (v : ChatView).

(** [messages.map] throws on an undefined cell. *)
Definition render (s : State) : option View :=
  if negb (initialized s) then
    Some (VSetup
      {| form_values := config s;
         start_disabled := loading s;
         start_label := if loading s then lit "Initializing..."
                        else lit "Start Session" |})
  else
    match messages s with
    | None => None
    | Some msgs =>
      Some (VChat
        {| agent_status := or_else (currentAgent s) (lit "None");
           rows := map renderMessage msgs;
           input_value := input s;
           input_disabled := loading s;
           send_disabled := loading s;
           upload_disabled := uploading s;
           upload_label := if uploading s then lit "Uploading..."
                           else lit "Upload Files";
           agents_list := join (lit ", ") (availableAgents s) |})
    end.

Definition displayed (s : State) : option (list MessageRow) :=
  match render s with
  | Some (VChat v) => Some (rows v)
  | _ => None
  end.

(** The earlier view has no status pill; the controller is ready when the
    chat view is up and neither flag is set. *)
Definition Ready (s : State) : Prop :=
  exists v, render s = Some (VChat v) /\ loading s = false /\ uploading s = false.

End Earlier.

(** ** Vocabulary of the specification *)

(** A client-synthesized entry: the [userMsg] of some submission that passed
    the guard of [handleSend]. *)
Definition user_entry (m : Message) : Prop :=
  role m = lit "user" /\ trim (content m) <> [].

(** The message values a settled call hands to [setMessages]: the
    [messages || []] of a state body that reports an initialized session,
    the [messages] of a chat body. *)
Definition returned (l : Label) : list JsMsgs :=
  match l with
  | Settle _ (Resolved (StateBody res)) =>
      if st_initialized res then [Some (or_empty (st_messages res))] else []
  | Settle _ (Resolved (ChatBody res)) => [chat_messages res]
  | _ => []
  end.

(** The values the backend has returned along a run, and the empty list
    the client starts from. *)
Definition sources (tr : list Label) : list JsMsgs :=
  Some [] :: flat_map returned tr.

(** The cell is a source, or a source followed by one client-synthesized
    entry. *)
Definition backend_or_one_optimistic (tr : list Label) (v : JsMsgs) : Prop :=
  In v (sources tr) \/
  exists b m, In (Some b) (sources tr) /\ user_entry m /\ v = Some (b ++ [m]).

(** The cell is a source followed by any number of client-synthesized
    entries (or the undefined a chat body without [messages] left). *)
Definition backend_then_optimistic (tr : list Label) (v : JsMsgs) : Prop :=
  match v with
  | None => In None (sources tr)
  | Some l =>
      exists b opt, In (Some b) (sources tr) /\ Forall user_entry opt /\
                    l = b ++ opt
  end.

(** The calls to the four endpoints that are in flight. *)
Definition backend_calls (c : Client) : list (Request * Continuation) :=
  filter (fun p => is_http (fst p)) (inflight c).

(** The continuations that end with [setLoading(false)]: [handleInit]
    waiting for its init call or for the [checkState] it awaits, and
    [handleSend]. *)
Definition holds_loading (p : Request * Continuation) : bool :=
  match snd p with
  | KHandleInit | KCheckState FromInit | KHandleSend => true
  | _ => false
  end.

(** The continuation that ends with [setUploading(false)]. *)
Definition holds_uploading (p : Request * Continuation) : bool :=
  match snd p with
  | KHandleUpload => true
  | _ => false
  end.

Definition count {A} (f : A -> bool) (l : list A) : nat :=
  List.length (filter f l).

(** ** Sample values, for the scenarios of the specification *)

Definition hello : Message := {| role := lit "user"; content := lit "hello" |}.

Definition hi : Message := {| role := lit "assistant"; content := lit "hi" |}.

(** A session that is up, with [hello] typed in the input. *)
Definition sample_ready : State :=
  {| initialized := true;
     config := default_config;
     loading := false;
     messages := Some [];
     input := lit "hello";
     availableAgents := [lit "coder"; lit "browser"];
     currentAgent := Some (lit "coder");
     uploading := false;
     statusMessage := [];
     errorMessage := [] |}.

(** The same with a space, a tab and a no-break space in the input. *)
Definition sample_blank : State :=
  fst (setInput [32; 9; 160]%N sample_ready).

Definition sample_earlier : Earlier.State :=
  {| Earlier.initialized := true;
     Earlier.config := default_config;
     Earlier.loading := false;
     Earlier.messages := Some [];
     Earlier.input := lit "hello";
     Earlier.availableAgents := [lit "coder"; lit "browser"];
     Earlier.currentAgent := Some (lit "coder");
     Earlier.uploading := false |}.

Definition sample_earlier_blank : Earlier.State :=
  fst (Earlier.setInput [32; 9; 160]%N sample_earlier).

(** [{initialized:true, messages:[], available_agents:["coder","browser"],
    agent_name:"coder"}]. *)
Definition state_up : StateData :=
  {| st_initialized := true;
     st_messages := Some [];
     st_available_agents := Some [lit "coder"; lit "browser"];
     st_agent_name := Some (lit "coder") |}.

(** [{initialized:false}]. *)
Definition state_down : StateData :=
  {| st_initialized := false;
     st_messages := None;
     st_available_agents := None;
     st_agent_name := None |}.

(** [{initialized:true}], nothing else. *)
Definition state_bare : StateData :=
  {| st_initialized := true;
     st_messages := None;
     st_available_agents := None;
     st_agent_name := None |}.

Definition chat_reply : ChatData :=
  {| chat_response := lit "hi";
     chat_agent_name := Some (lit "coder");
     chat_messages := Some [hello; hi] |}.

Definition network_error : AxiosError :=
  {| detail := None; message := lit "Network Error" |}.

Definition a_file : File := {| file_name := lit "notes.txt"; file_bytes := [] |}.

(** The client with the session up and nothing in flight. *)
Definition session_up : list Label :=
  [Settle 0 (Resolved (StateBody state_up))].

(** Two submissions, both rejected. *)
Definition two_failed_sends : list Label :=
  session_up ++
  [User (ChangeInput (lit "hello")); User SubmitMessage;
   Settle 0 (Rejected network_error);
   User (ChangeInput (lit "again")); User SubmitMessage;
   Settle 0 (Rejected network_error)].

(** A submission, and a file selection before the chat call settles. *)
Definition send_then_upload : list Label :=
  session_up ++
  [User (ChangeInput (lit "hello")); User SubmitMessage;
   User (SelectFiles (Some [a_file]))].

(** At most one call to the four endpoints is in flight. *)
Definition one_call_at_a_time (c : Client) : Prop :=
  List.length (backend_calls c) <= 1.

(** The client reached by [send_then_upload]. *)
Definition overlap_client : Client :=
  match run mounted send_then_upload with
  | Some c => c
  | None => mounted
  end.

(** The client reached by [two_failed_sends]. *)
Definition stale_client : Client :=
  match run mounted two_failed_sends with
  | Some c => c
  | None => mounted
  end.

(** How often the initialized cell goes from false to true along a run. *)
Fixpoint flips (c : Client) (tr : list Label) : nat :=
  match tr with
  | [] => 0
  | l :: rest =>
      match exec c l with
      | Some (c', _) =>
          (if negb (initialized (cells c)) && initialized (cells c')
           then 1 else 0) + flips c' rest
      | None => 0
      end
  end.

(** A [checkState] started by the Refresh button is waiting. *)
Definition refresh_waiting (c : Client) : Prop :=
  exists req, In (req, KCheckState FromRefresh) (inflight c).

(** ** Further vocabulary *)

(** The string has a code unit that [trim] keeps. *)
Definition has_text (s : jsstring) : bool :=
  existsb (fun c => negb (is_ws c)) s.


(** The continuations that can wait while the setup view is shown. *)
Definition setup_time (p : Request * Continuation) : bool :=
  match snd p with
  | KCheckState FromMount | KCheckState FromInit | KHandleInit => true
  | _ => false
  end.

(** A session that is up, with padded text in the input. *)
Definition sample_padded : State :=
  fst (setInput (lit "  hi ") sample_ready).

(** The client with the session up, [hello] typed, nothing in flight. *)
Definition typed_client : Client :=
  match run mounted (session_up ++ [User (ChangeInput (lit "hello"))]) with
  | Some c => c
  | None => mounted
  end.

(** The client at its setup view, after the mount fetch found no session. *)
Definition setup_client : Client :=
  match run mounted [Settle 0 (Resolved (StateBody state_down))] with
  | Some c => c
  | None => mounted
  end.

(** A chat body without [messages]. *)
Definition chat_bare : ChatData :=
  {| chat_response := lit "hi";
     chat_agent_name := None;
     chat_messages := None |}.

(** A validation failure of the init endpoint. *)
Definition port_in_use : AxiosError :=
  {| detail := Some (lit "port in use");
     message := lit "Request failed with status code 400" |}.

(** * Properties *)

(** ** Strings *)

Lemma str_eqb_eq (a b : jsstring) : str_eqb a b = true <-> a = b.
Proof.
  revert b; induction a as [|x a IH]; intros [|y b]; simpl; split;
    try congruence; try reflexivity.
  - intros H. apply andb_true_iff in H as [Hx Hr].
    apply N.eqb_eq in Hx. apply IH in Hr. congruence.
  - intros H. injection H as -> ->. rewrite N.eqb_refl. simpl.
    now apply IH.
Qed.

Lemma str_eqb_neq (a b : jsstring) : a <> b -> str_eqb a b = false.
Proof.
  intros H. destruct (str_eqb a b) eqn:E; [|reflexivity].
  apply str_eqb_eq in E. contradiction.
Qed.

Lemma trimStart_nil_iff (s : jsstring) :
  trimStart s = [] <-> forallb is_ws s = true.
Proof.
  induction s as [|c s IH]; simpl.
  - tauto.
  - destruct (is_ws c); simpl; [exact IH | split; discriminate].
Qed.

(** What [trimStart] leaves is empty or starts with a code unit that is
    kept. *)
Lemma trimStart_head (s : jsstring) :
  match trimStart s with
  | [] => True
  | c :: _ => is_ws c = false
  end.
Proof.
  induction s as [|c s IH]; simpl; [exact I|].
  destruct (is_ws c) eqn:E; [exact IH | exact E].
Qed.

Lemma forallb_rev {A} (f : A -> bool) (l : list A) :
  forallb f (rev l) = forallb f l.
Proof.
  induction l as [|x l IH]; simpl; [reflexivity|].
  rewrite forallb_app, IH. simpl. rewrite andb_true_r. apply andb_comm.
Qed.

(** [!input.trim()] holds exactly for the strings made of white space. *)
Lemma trim_nil_iff (s : jsstring) :
  trim s = [] <-> forallb is_ws s = true.
Proof.
  unfold trim, trimEnd. split.
  - intros H. apply trimStart_nil_iff.
    assert (Hr : trimStart (rev (trimStart s)) = []).
    { destruct (trimStart (rev (trimStart s))) as [|c l]; [reflexivity|].
      simpl in H. destruct (rev l); discriminate. }
    apply trimStart_nil_iff in Hr. rewrite forallb_rev in Hr.
    pose proof (trimStart_head s) as Hh.
    destruct (trimStart s) as [|c t]; [reflexivity|].
    simpl in Hr. rewrite Hh in Hr. discriminate.
  - intros H. apply trimStart_nil_iff in H. rewrite H. reflexivity.
Qed.

(** ** Segments that write nothing, segments that start nothing *)

Lemma handleSend_begin_blank (s : State) :
  trim (input s) = [] -> handleSend_begin s = (s, [PreventDefault]).
Proof.
  intros H. unfold handleSend_begin, andThen, reading, emit, skip.
  rewrite H. reflexivity.
Qed.

Lemma handleSend_begin_text (s : State) :
  trim (input s) <> [] ->
  handleSend_begin s =
    (fst (setLoading true
       (fst (setInput []
          (fst (updateMessages
             (spread_append {| role := lit "user"; content := input s |}) s))))),
     [PreventDefault;
      Await (PostChat (input s)) KHandleSend]).
Proof.
  intros H. unfold handleSend_begin, andThen, reading, emit, skip.
  destruct (trim (input s)) eqn:E; [congruence|]. reflexivity.
Qed.

Lemma render_chat_inv (s : State) (v : ChatView) :
  render s = Some (VChat v) ->
  initialized s = true /\ exists msgs, messages s = Some msgs /\
    rows v = map renderMessage msgs /\
    send_disabled v = loading s /\ upload_disabled v = uploading s /\
    refresh_disabled v = loading s /\ input_disabled v = loading s /\
    banner v = renderStatus s.
Proof.
  unfold render. destruct (initialized s); simpl; [|discriminate].
  destruct (messages s) as [msgs|]; [|discriminate].
  intros H. injection H as <-. simpl. split; [reflexivity|].
  exists msgs. repeat split.
Qed.

Lemma render_setup_inv (s : State) (v : SetupView) :
  render s = Some (VSetup v) ->
  initialized s = false /\ launch_disabled v = loading s /\
  form_values v = config s.
Proof.
  unfold render. destruct (initialized s); simpl.
  - destruct (messages s); discriminate.
  - intros H. injection H as <-. simpl. repeat split.
Qed.

Lemma Ready_inv (s : State) :
  Ready s ->
  initialized s = true /\ loading s = false /\ uploading s = false /\
  exists msgs, messages s = Some msgs.
Proof.
  intros [v [Hr Hp]]. unfold render in Hr.
  destruct (initialized s); simpl in Hr; [|discriminate].
  destruct (messages s) as [msgs|]; [|discriminate].
  injection Hr as <-. simpl in Hp.
  destruct (uploading s); [discriminate|].
  destruct (loading s); [discriminate|].
  repeat split. now exists msgs.
Qed.

Lemma Ready_intro (s : State) (msgs : list Message) :
  initialized s = true -> loading s = false -> uploading s = false ->
  messages s = Some msgs -> Ready s.
Proof.
  intros Hi Hl Hu Hm. unfold Ready, render. rewrite Hi, Hm, Hl, Hu. simpl.
  eexists. split; reflexivity.
Qed.

(** ** Empty submissions *)

(** C5.  A submission whose input is empty after trimming -- that is, made
    of white space only -- starts no network call and leaves every cell as
    it was, in both revisions of the component; on the running client the
    step leaves the cells and the calls in flight unchanged. *)
Theorem C5_blank_submission_is_noop :
  (forall s : State, trim (input s) = [] ->
     fst (handleSend_begin s) = s /\
     network_calls (snd (handleSend_begin s)) = [] /\
     awaits (snd (handleSend_begin s)) = []) /\
  (forall s : Earlier.State, trim (Earlier.input s) = [] ->
     fst (Earlier.handleSend_begin s) = s /\
     network_calls (snd (Earlier.handleSend_begin s)) = [] /\
     awaits (snd (Earlier.handleSend_begin s)) = []) /\
  (forall s : State, forallb is_ws (input s) = true -> trim (input s) = []) /\
  (forall (c c' : Client) effs,
     trim (input (cells c)) = [] ->
     exec c (User SubmitMessage) = Some (c', effs) ->
     cells c' = cells c /\ inflight c' = inflight c /\ alive c' = alive c /\
     network_calls effs = []).
Proof.
  split; [|split; [|split]].
  - intros s H. rewrite (handleSend_begin_blank s H). repeat split.
  - intros s H.
    unfold Earlier.handleSend_begin, andThen, reading, emit, skip.
    rewrite H. repeat split.
  - intros s H. now apply trim_nil_iff.
  - intros c c' effs H Hx. unfold exec in Hx.
    destruct (alive c) eqn:Ha; [|discriminate].
    destruct (render (cells c)) as [v|] eqn:Hr; [|discriminate].
    destruct (enabled v SubmitMessage); [|discriminate].
    injection Hx as <- <-. unfold after, handle.
    rewrite (handleSend_begin_blank (cells c) H). simpl.
    unfold renders. rewrite Hr, Ha, app_nil_r. repeat split.
Qed.

Lemma C5_blank_submission_is_noop_witness :
  fst (handleSend_begin sample_blank) = sample_blank /\
  network_calls (snd (handleSend_begin sample_blank)) = [] /\
  awaits (snd (handleSend_begin sample_blank)) = [].
Proof.
  apply (proj1 C5_blank_submission_is_noop sample_blank). reflexivity.
Defined.

(** C6.  A file-selection event with a missing or empty file list starts
    no network call and leaves every cell, the uploading flag included, as
    it was, in both revisions; on the running client the step changes
    neither the cells nor the calls in flight. *)
Theorem C6_empty_selection_is_noop :
  (forall s : State,
     handleUpload_begin None s = (s, []) /\
     handleUpload_begin (Some []) s = (s, [])) /\
  (forall s : Earlier.State,
     Earlier.handleUpload_begin None s = (s, []) /\
     Earlier.handleUpload_begin (Some []) s = (s, [])) /\
  (forall (c c' : Client) files effs,
     files = None \/ files = Some [] ->
     exec c (User (SelectFiles files)) = Some (c', effs) ->
     cells c' = cells c /\ uploading (cells c') = uploading (cells c) /\
     inflight c' = inflight c /\ alive c' = alive c /\
     network_calls effs = []).
Proof.
  split; [|split].
  - intros s. split; reflexivity.
  - intros s. split; reflexivity.
  - intros c c' files effs Hf Hx. unfold exec in Hx.
    destruct (alive c) eqn:Ha; [|discriminate].
    destruct (render (cells c)) as [v|] eqn:Hr; [|discriminate].
    destruct (enabled v (SelectFiles files)); [|discriminate].
    injection Hx as <- <-. unfold after, handle.
    destruct Hf as [-> | ->]; simpl; unfold renders;
      rewrite Hr, Ha, app_nil_r; repeat split.
Qed.

Lemma C6_empty_selection_is_noop_witness :
  exists c', exec (fst (after mounted [] (checkState_resolved state_up initial_state)))
                  (User (SelectFiles (Some []))) = Some (c', []) /\
             uploading (cells c') = false /\ inflight c' = [].
Proof.
  eexists. split; [reflexivity|].
  pose proof (proj2 (proj2 C6_empty_selection_is_noop)
    (fst (after mounted [] (checkState_resolved state_up initial_state)))
    _ (Some []) [] (or_intror eq_refl) eq_refl) as H.
  split; [reflexivity | apply H].
Defined.

(** ** Role labels *)

(** C9.  [formatRoleLabel] is total: a role that is none of user,
    assistant, system, tool gets the default label "You"; the four
    recognized roles get "You", "Assistant", "System" and "Tool"; and the
    chat view renders one row per message whatever the roles are.  The
    earlier revision, which has no [formatRoleLabel], labels the user role
    "You" and any other role with the role text itself. *)
Theorem C9_role_labels :
  (forall r : jsstring,
     r <> lit "user" -> r <> lit "assistant" -> r <> lit "system" ->
     r <> lit "tool" -> formatRoleLabel r = lit "You") /\
  formatRoleLabel (lit "user") = lit "You" /\
  formatRoleLabel (lit "assistant") = lit "Assistant" /\
  formatRoleLabel (lit "system") = lit "System" /\
  formatRoleLabel (lit "tool") = lit "Tool" /\
  (forall (s : State) msgs,
     initialized s = true -> messages s = Some msgs ->
     displayed s = Some (map renderMessage msgs) /\
     forall i m, nth_error msgs i = Some m ->
       exists row, nth_error (map renderMessage msgs) i = Some row /\
                   row_label row = formatRoleLabel (role m) /\
                   row_content row = content m) /\
  (forall r : jsstring, r <> lit "user" -> Earlier.roleLabel r = r) /\
  Earlier.roleLabel (lit "user") = lit "You" /\
  (forall (s : Earlier.State) msgs,
     Earlier.initialized s = true -> Earlier.messages s = Some msgs ->
     Earlier.displayed s = Some (map Earlier.renderMessage msgs)).
Proof.
  repeat match goal with |- _ /\ _ => split end; try reflexivity.
  - intros r Hu Ha Hs Ht. unfold formatRoleLabel.
    now rewrite !str_eqb_neq.
  - intros s msgs Hi Hm. split.
    + unfold displayed, render. rewrite Hi, Hm. reflexivity.
    + intros i m Hnth. exists (renderMessage m).
      split; [|split; reflexivity]. now apply map_nth_error.
  - intros r Hu. unfold Earlier.roleLabel. now rewrite str_eqb_neq.
  - intros s msgs Hi Hm. unfold Earlier.displayed, Earlier.render.
    rewrite Hi, Hm. reflexivity.
Qed.

Lemma C9_role_labels_witness :
  formatRoleLabel (lit "observer") = lit "You".
Proof.
  apply (proj1 C9_role_labels (lit "observer")); discriminate.
Defined.

(** ** State refresh *)

Lemma checkState_resolved_up (s : State) (res : StateData) :
  st_initialized res = true ->
  checkState_resolved res s =
    ({| initialized := true; config := config s; loading := loading s;
        messages := Some (or_empty (st_messages res)); input := input s;
        availableAgents := or_empty (st_available_agents res);
        currentAgent := st_agent_name res;
        uploading := uploading s; statusMessage := statusMessage s;
        errorMessage := errorMessage s |}, []).
Proof. intros H. unfold checkState_resolved. rewrite H. reflexivity. Qed.

Lemma checkState_resolved_down (s : State) (res : StateData) :
  st_initialized res = false -> checkState_resolved res s = (s, []).
Proof. intros H. unfold checkState_resolved. rewrite H. reflexivity. Qed.

(** C10.  When a state fetch resolves with [initialized] true, the
    messages cell and the agents cell hold the lists of the body, and the
    empty list for a field that is absent or null: never undefined.  The
    chat view then renders, with one row per message and one chip per
    agent.  This holds for every caller of [checkState] and in both
    revisions. *)
Theorem C10_state_refresh_defaults_to_empty_lists :
  (forall (s : State) (res : StateData) (c : Caller) (act : Act),
     st_initialized res = true ->
     settle (KCheckState c) (Resolved (StateBody res)) = Some act ->
     let s' := fst (act s) in
     messages s' = Some (or_empty (st_messages res)) /\
     availableAgents s' = or_empty (st_available_agents res) /\
     (st_messages res = None -> messages s' = Some []) /\
     (st_available_agents res = None -> availableAgents s' = []) /\
     exists v, render s' = Some (VChat v) /\
               rows v = map renderMessage (or_empty (st_messages res)) /\
               agent_chips v = or_empty (st_available_agents res)) /\
  (forall (s : Earlier.State) (res : StateData),
     st_initialized res = true ->
     let s' := fst (Earlier.checkState_resolved res s) in
     Earlier.messages s' = Some (or_empty (st_messages res)) /\
     Earlier.availableAgents s' = or_empty (st_available_agents res) /\
     exists v, Earlier.render s' = Some (Earlier.VChat v) /\
               Earlier.rows v =
                 map Earlier.renderMessage (or_empty (st_messages res))).
Proof.
  split.
  - intros s res c act Hi Hs. injection Hs as <-.
    unfold andThen. rewrite (checkState_resolved_up s res Hi).
    assert (Hm : forall T (x : option (list T)), x = None -> or_empty x = [])
      by (intros T x ->; reflexivity).
    destruct c; cbn; (repeat split;
      [ intros E; now rewrite (Hm _ _ E)
      | intros E; now rewrite (Hm _ _ E)
      | eexists; split; [reflexivity | split; reflexivity] ]).
  - intros s res Hi. unfold Earlier.checkState_resolved. rewrite Hi. cbn.
    repeat split. eexists. split; reflexivity.
Qed.

Lemma C10_state_refresh_defaults_to_empty_lists_witness :
  messages (fst (checkState_resolved state_bare initial_state)) = Some [] /\
  availableAgents (fst (checkState_resolved state_bare initial_state)) = [].
Proof.
  pose proof (proj1 C10_state_refresh_defaults_to_empty_lists
    initial_state state_bare FromMount _ eq_refl eq_refl) as H.
  cbv zeta in H. destruct H as [Hm [Ha _]]. split; [exact Hm | exact Ha].
Defined.

(** ** Start of the client *)

(** C8.  The configuration cell starts with container name "auto_agent",
    port 12347, test pull name "autoagent_mirror", git clone on, local
    environment off and model "gpt-4o-2024-08-06"; the mount effect has
    one state fetch in flight; and when that fetch resolves with
    [initialized] false, no cell changes: the client still shows the setup
    view, with those defaults in the form and an empty message list. *)
Theorem C8_defaults_and_uninitialized_start :
  config initial_state =
    {| container_name := lit "auto_agent"; port := Int 12347;
       test_pull_name := lit "autoagent_mirror"; git_clone := true;
       local_env := false; model := lit "gpt-4o-2024-08-06" |} /\
  cells mounted = initial_state /\
  inflight mounted = [(GetState, KCheckState FromMount)] /\
  (forall res : StateData, st_initialized res = false ->
     exists c', exec mounted (Settle 0 (Resolved (StateBody res))) = Some (c', []) /\
       cells c' = initial_state /\ inflight c' = [] /\
       initialized (cells c') = false /\ messages (cells c') = Some [] /\
       exists v, render (cells c') = Some (VSetup v) /\
                 form_values v = default_config /\ launch_disabled v = false).
Proof.
  repeat split.
  intros res Hi. eexists. split.
  - cbn. unfold after, andThen.
    rewrite (checkState_resolved_down initial_state res Hi). cbn. reflexivity.
  - cbn. repeat split. eexists. split; [reflexivity|]. split; reflexivity.
Qed.

Lemma C8_defaults_and_uninitialized_start_witness :
  exists c', exec mounted (Settle 0 (Resolved (StateBody state_down))) = Some (c', []) /\
             cells c' = initial_state.
Proof.
  destruct (proj2 (proj2 (proj2 C8_defaults_and_uninitialized_start))
              state_down eq_refl) as [c' [Hx [Hc _]]].
  exists c'. split; [exact Hx | exact Hc].
Defined.

(** ** Sending a message *)

Lemma Ready_can_submit (s : State) :
  Ready s -> exists v, render s = Some (VChat v) /\ enabled (VChat v) SubmitMessage = true.
Proof.
  intros HR. destruct (Ready_inv HR) as [_ [Hl _]].
  destruct HR as [v [Hr _]]. exists v. split; [exact Hr|].
  destruct (render_chat_inv s Hr) as [_ [msgs [_ [_ [Hs _]]]]].
  simpl. now rewrite Hs, Hl.
Qed.

Lemma nth_error_snoc {A} (l : list A) (x : A) :
  nth_error (l ++ [x]) (List.length l) = Some x.
Proof. induction l as [|y l IH]; simpl; [reflexivity | exact IH]. Qed.

Lemma remove_nth_snoc {A} (l : list A) (x : A) :
  remove_nth (List.length l) (l ++ [x]) = l.
Proof.
  unfold remove_nth. induction l as [|y l IH]; simpl; [reflexivity|].
  simpl in IH. now rewrite IH.
Qed.

(** C1.  Submitting an input that is non-empty after trimming while Ready
    appends exactly one entry [{role:'user', content:input}] to the
    messages cell and to the rows on screen and starts one chat call with
    that input; when the chat call resolves, the cell is exactly the
    [messages] of the body, whatever the cell held before, so no copy of
    the optimistic entry is left beside it.  The same holds in the earlier
    revision, and for the steps of the running client. *)
Theorem C1_optimistic_entry_then_backend_list :
  (forall (s : State) (msgs : list Message),
     Ready s -> messages s = Some msgs -> trim (input s) <> [] ->
     let userMsg := {| role := lit "user"; content := input s |} in
     let s1 := fst (handleSend_begin s) in
     messages s1 = Some (msgs ++ [userMsg]) /\
     displayed s1 = Some (map renderMessage msgs ++ [renderMessage userMsg]) /\
     awaits (snd (handleSend_begin s)) = [(PostChat (input s), KHandleSend)] /\
     forall (res : ChatData) (l : list Message),
       chat_messages res = Some l ->
       messages (fst (handleSend_resolved res s1)) = Some l /\
       displayed (fst (handleSend_resolved res s1)) = Some (map renderMessage l)) /\
  (forall (res : ChatData) (s2 : State),
     messages (fst (handleSend_resolved res s2)) = chat_messages res /\
     loading (fst (handleSend_resolved res s2)) = false /\
     currentAgent (fst (handleSend_resolved res s2)) = chat_agent_name res /\
     awaits (snd (handleSend_resolved res s2)) = []) /\
  (forall (c : Client) (msgs : list Message) (res : ChatData),
     alive c = true -> Ready (cells c) -> messages (cells c) = Some msgs ->
     trim (input (cells c)) <> [] ->
     exists c1 effs1 c2 effs2,
       exec c (User SubmitMessage) = Some (c1, effs1) /\
       messages (cells c1) =
         Some (msgs ++ [{| role := lit "user"; content := input (cells c) |}]) /\
       inflight c1 = inflight c ++ [(PostChat (input (cells c)), KHandleSend)] /\
       exec c1 (Settle (List.length (inflight c)) (Resolved (ChatBody res)))
         = Some (c2, effs2) /\
       messages (cells c2) = chat_messages res /\
       inflight c2 = inflight c) /\
  (forall (s : Earlier.State) (msgs : list Message),
     Earlier.Ready s -> Earlier.messages s = Some msgs ->
     trim (Earlier.input s) <> [] ->
     let userMsg := {| role := lit "user"; content := Earlier.input s |} in
     let s1 := fst (Earlier.handleSend_begin s) in
     Earlier.messages s1 = Some (msgs ++ [userMsg]) /\
     awaits (snd (Earlier.handleSend_begin s))
       = [(PostChat (Earlier.input s), KHandleSend)] /\
     forall res : ChatData,
       Earlier.messages (fst (Earlier.handleSend_resolved res s1))
         = chat_messages res).
Proof.
  split; [|split; [|split]].
  - intros s msgs HR Hm Ht userMsg s1. subst userMsg s1.
    destruct (Ready_inv HR) as [Hi _].
    rewrite (handleSend_begin_text s Ht). cbn. rewrite Hm. cbn.
    split; [reflexivity|]. split.
    + unfold displayed, render. cbn. rewrite Hi. cbn.
      now rewrite map_app.
    + split; [reflexivity|]. intros res l Hl. split.
      * cbn. exact Hl.
      * unfold displayed, render. cbn. rewrite Hi, Hl. reflexivity.
  - intros res s2. cbn. repeat split.
  - intros c msgs res Ha HR Hm Ht.
    destruct (Ready_can_submit HR) as [v [Hr He]].
    do 4 eexists. split.
    + unfold exec. rewrite Ha, Hr, He. reflexivity.
    + unfold after, handle. rewrite (handleSend_begin_text (cells c) Ht).
      cbn [fst snd cells inflight awaits]. split.
      * cbn. now rewrite Hm.
      * split; [reflexivity|]. split.
        -- unfold exec. cbn [inflight]. rewrite nth_error_snoc.
           cbn [settle]. rewrite remove_nth_snoc. reflexivity.
        -- cbn. split; [reflexivity | apply app_nil_r].
  - intros s msgs HR Hm Ht userMsg s1. subst userMsg s1.
    unfold Earlier.handleSend_begin, andThen, reading, emit, skip.
    destruct (trim (Earlier.input s)) eqn:E; [congruence|].
    cbn. rewrite Hm. repeat split.
Qed.

Lemma C1_optimistic_entry_then_backend_list_witness :
  messages (fst (handleSend_begin sample_ready)) = Some [hello] /\
  messages (fst (handleSend_resolved chat_reply (fst (handleSend_begin sample_ready))))
    = Some [hello; hi].
Proof.
  assert (HR : Ready sample_ready)
    by (eexists; split; reflexivity).
  assert (Ht : trim (input sample_ready) <> []) by discriminate.
  destruct (proj1 C1_optimistic_entry_then_backend_list
              sample_ready [] HR eq_refl Ht) as [H1 [_ [_ H4]]].
  split; [exact H1 | exact (proj1 (H4 chat_reply [hello; hi] eq_refl))].
Defined.

(** C2.  When the chat call of a submission fails, [handleSend] clears
    the loading flag, leaves the messages cell as it finds it (so the entry
    appended before the call stays: nothing is rolled back), shows an
    alert with the failure text and sets the error banner; a client that
    was Ready before the submission is Ready again.  The earlier revision
    does the same with the alert as its only indicator. *)
Theorem C2_failed_send_keeps_optimistic_entry :
  (forall (err : AxiosError) (s2 : State),
     let r := handleSend_rejected err s2 in
     loading (fst r) = false /\
     messages (fst r) = messages s2 /\
     snd r = [Alert (lit "Message failed: " ++ error_text err)] /\
     errorMessage (fst r) = lit "Message failed. Please try again." /\
     initialized (fst r) = initialized s2 /\ config (fst r) = config s2 /\
     input (fst r) = input s2 /\
     availableAgents (fst r) = availableAgents s2 /\
     currentAgent (fst r) = currentAgent s2 /\
     uploading (fst r) = uploading s2 /\
     statusMessage (fst r) = statusMessage s2) /\
  (forall (s : State) (msgs : list Message) (err : AxiosError),
     Ready s -> messages s = Some msgs -> trim (input s) <> [] ->
     let userMsg := {| role := lit "user"; content := input s |} in
     let s' := fst (handleSend_rejected err (fst (handleSend_begin s))) in
     Ready s' /\
     messages s' = Some (msgs ++ [userMsg]) /\
     displayed s' = Some (map renderMessage msgs ++ [renderMessage userMsg]) /\
     exists v, render s' = Some (VChat v) /\
       banner v = Some (BannerError (lit "Message failed. Please try again."))) /\
  (forall (c : Client) (msgs : list Message) (err : AxiosError),
     alive c = true -> Ready (cells c) -> messages (cells c) = Some msgs ->
     trim (input (cells c)) <> [] ->
     exists c1 effs1 c2,
       exec c (User SubmitMessage) = Some (c1, effs1) /\
       exec c1 (Settle (List.length (inflight c)) (Rejected err))
         = Some (c2, [Alert (lit "Message failed: " ++ error_text err)]) /\
       Ready (cells c2) /\ alive c2 = true /\
       messages (cells c2) =
         Some (msgs ++ [{| role := lit "user"; content := input (cells c) |}]) /\
       inflight c2 = inflight c) /\
  (forall (err : AxiosError) (s2 : Earlier.State),
     let r := Earlier.handleSend_rejected err s2 in
     Earlier.loading (fst r) = false /\
     Earlier.messages (fst r) = Earlier.messages s2 /\
     snd r = [Alert (lit "Message failed: " ++ error_text err)]).
Proof.
  split; [|split; [|split]].
  - intros err s2. cbn. repeat split.
  - intros s msgs err HR Hm Ht userMsg s'. subst userMsg s'.
    destruct (Ready_inv HR) as [Hi [_ [Hu _]]].
    rewrite (handleSend_begin_text s Ht). cbn. rewrite Hm. cbn.
    split; [|split; [reflexivity|split]].
    + eapply Ready_intro; cbn; try eassumption; reflexivity.
    + unfold displayed, render. cbn. rewrite Hi. cbn. now rewrite map_app.
    + unfold render. cbn. rewrite Hi. eexists. split; reflexivity.
  - intros c msgs err Ha HR Hm Ht.
    destruct (Ready_can_submit HR) as [v [Hr He]].
    destruct (Ready_inv HR) as [Hi [_ [Hu _]]].
    do 3 eexists. split.
    + unfold exec. rewrite Ha, Hr, He. reflexivity.
    + unfold after, handle. rewrite (handleSend_begin_text (cells c) Ht).
      cbn [fst snd cells inflight awaits]. split.
      * unfold exec. cbn [inflight]. rewrite nth_error_snoc.
        cbn [settle]. rewrite remove_nth_snoc. cbn.
        unfold renders, render. cbn. rewrite Hi, Hm, Ha. cbn.
        reflexivity.
      * cbn. split; [|split; [reflexivity|split; [reflexivity|]]].
        -- eapply Ready_intro; cbn; try eassumption; reflexivity.
        -- apply app_nil_r.
  - intros err s2. cbn. repeat split.
Qed.

Lemma C2_failed_send_keeps_optimistic_entry_witness :
  Ready (fst (handleSend_rejected network_error (fst (handleSend_begin sample_ready)))) /\
  messages (fst (handleSend_rejected network_error (fst (handleSend_begin sample_ready))))
    = Some [hello].
Proof.
  assert (HR : Ready sample_ready) by (eexists; split; reflexivity).
  assert (Ht : trim (input sample_ready) <> []) by discriminate.
  destruct (proj1 (proj2 C2_failed_send_keeps_optimistic_entry)
              sample_ready [] network_error HR eq_refl Ht) as [H1 [H2 _]].
  split; [exact H1 | exact H2].
Defined.

(** ** Runs of the client *)

Lemma run_snoc (c : Client) (tr : list Label) (l : Label) :
  run c (tr ++ [l]) =
    match run c tr with
    | Some c1 => option_map fst (exec c1 l)
    | None => None
    end.
Proof.
  revert c; induction tr as [|l0 tr IH]; intros c; simpl.
  - destruct (exec c l) as [[c' effs]|]; reflexivity.
  - destruct (exec c l0) as [[c' effs]|]; [apply IH | reflexivity].
Qed.

(** Induction along a run, from the mounted client. *)
Lemma run_ind (P : list Label -> Client -> Prop) :
  P [] mounted ->
  (forall tr c l c' effs,
     run mounted tr = Some c -> P tr c -> exec c l = Some (c', effs) ->
     P (tr ++ [l]) c') ->
  forall tr c, run mounted tr = Some c -> P tr c.
Proof.
  intros H0 Hstep tr. induction tr as [|l tr IH] using rev_ind; intros c Hr.
  - injection Hr as <-. exact H0.
  - rewrite run_snoc in Hr. destruct (run mounted tr) as [c1|] eqn:E1;
      [|discriminate].
    destruct (exec c1 l) as [[c' effs]|] eqn:E2; [|discriminate].
    injection Hr as <-. eapply Hstep; eauto.
Qed.

Lemma reachable_ind (P : Client -> Prop) :
  P mounted ->
  (forall c l c' effs, reachable c -> P c -> exec c l = Some (c', effs) -> P c') ->
  forall c, reachable c -> P c.
Proof.
  intros H0 Hstep c [tr Hr].
  refine (run_ind (fun _ c => P c) H0 _ tr Hr).
  intros tr0 c0 l c' effs Hr0 HP Hx. eapply Hstep; eauto. now exists tr0.
Qed.

(** A step is a handler segment run on the cells. *)
Lemma exec_inv (c : Client) (l : Label) (c' : Client) (effs : list Effect) :
  exec c l = Some (c', effs) ->
  (exists e v, l = User e /\ alive c = true /\ render (cells c) = Some v /\
     enabled v e = true /\
     (c', effs) = after c (inflight c) (handle e (cells c))) \/
  (exists idx o req k act, l = Settle idx o /\
     nth_error (inflight c) idx = Some (req, k) /\ settle k o = Some act /\
     (c', effs) = after c (remove_nth idx (inflight c)) (act (cells c))).
Proof.
  destruct l as [e|idx o]; simpl; intros H.
  - left. destruct (alive c); [|discriminate].
    destruct (render (cells c)) as [v|]; [|discriminate].
    destruct (enabled v e) eqn:He; [|discriminate].
    injection H as <- <-. exists e, v. repeat split. exact He.
  - right. destruct (nth_error (inflight c) idx) as [[req k]|] eqn:Hn;
      [|discriminate].
    destruct (settle k o) as [act|] eqn:Hs; [|discriminate].
    injection H as <- <-. exists idx, o, req, k, act. repeat split; assumption.
Qed.

Lemma count_app {A} (f : A -> bool) (l1 l2 : list A) :
  count f (l1 ++ l2) = count f l1 + count f l2.
Proof. unfold count. now rewrite filter_app, length_app. Qed.

Lemma count_remove_nth {A} (f : A -> bool) (l : list A) (i : nat) (x : A) :
  nth_error l i = Some x ->
  count f l = count f (remove_nth i l) + (if f x then 1 else 0).
Proof.
  revert i; induction l as [|y l IH]; intros [|i] H; try discriminate.
  - injection H as ->. unfold remove_nth, count. cbn.
    destruct (f x); cbn; lia.
  - specialize (IH i H).
    change (remove_nth (S i) (y :: l)) with (y :: remove_nth i l).
    unfold count in *. cbn [filter].
    destruct (f y); cbn [List.length]; lia.
Qed.

Lemma In_remove_nth {A} (l : list A) (i : nat) (x : A) :
  In x (remove_nth i l) -> In x l.
Proof.
  unfold remove_nth. intros H. apply in_app_or in H as [H|H].
  - rewrite <- (firstn_skipn i l). apply in_or_app. now left.
  - rewrite <- (firstn_skipn (S i) l). apply in_or_app. now right.
Qed.

(** ** Calls in flight *)

(** The case analysis of a step: which control fired on which view, or
    which continuation ran on which outcome. *)
Ltac step_cases H :=
  let e := fresh "e" in let v := fresh "v" in
  let Ha := fresh "Ha" in let Hr := fresh "Hr" in let He := fresh "He" in
  let Hc := fresh "Hc" in let idx := fresh "idx" in let o := fresh "o" in
  let req := fresh "req" in let k := fresh "k" in let act := fresh "act" in
  let Hn := fresh "Hn" in let Hs := fresh "Hs" in
  apply exec_inv in H;
  destruct H as [(e & v & -> & Ha & Hr & He & Hc)
                |(idx & o & req & k & act & -> & Hn & Hs & Hc)];
  [ destruct v as [v|v]; destruct e; simpl in He; try discriminate He;
    unfold after, handle in Hc
  | destruct k as [[| |]| | | |]; destruct o as [[| | | |]|];
    simpl in Hs; try discriminate Hs; injection Hs as <-;
    unfold after in Hc ];
  injection Hc as -> ->.

Ltac segments :=
  unfold handleInit_begin, handleInit_resolved, handleInit_finish,
    handleInit_rejected, handleSend_resolved, handleSend_rejected,
    handleUpload_resolved, handleUpload_rejected, handleCopyMessage_begin,
    handleCopyMessage_resolved, handleCopyMessage_rejected,
    checkState_begin, checkState_rejected, after_checkState,
    andThen, reading, emit, skip.

(** The loading flag is set exactly while one of [handleInit] and
    [handleSend] is between its first and its last statement, and the
    uploading flag exactly while [handleUpload] is. *)
Lemma flags_count_holders (c : Client) :
  reachable c ->
  count holds_loading (inflight c) = (if loading (cells c) then 1 else 0) /\
  count holds_uploading (inflight c) = (if uploading (cells c) then 1 else 0).
Proof.
  intros H. induction H as [|c l c' effs _ [IHl IHu] Hx] using reachable_ind.
  - split; reflexivity.
  - step_cases Hx.
    all: try (apply render_setup_inv in Hr; destruct Hr as (Hi & Hl & _);
              rewrite Hl in He).
    all: try (apply render_chat_inv in Hr;
              destruct Hr as (Hi & msgs & Hm & _ & Hsd & Hud & Hrd & Hid & _);
              rewrite ?Hsd, ?Hud, ?Hrd, ?Hid in He).
    all: try (rewrite (count_remove_nth holds_loading _ _ Hn) in IHl;
              rewrite (count_remove_nth holds_uploading _ _ Hn) in IHu;
              cbn [holds_loading holds_uploading snd] in IHl, IHu).
    all: unfold handleSend_begin, handleUpload_begin, checkState_resolved;
      segments; cbn [cells inflight fst snd].
    all: revert IHl IHu; try revert He.
    all: try match goal with
             | |- context [truthy (trim ?x)] => destruct (truthy (trim x))
             | |- context [st_initialized ?r] => destruct (st_initialized r)
             | |- context [nth_error (or_empty ?m) ?i] =>
                 destruct (nth_error (or_empty m) i)
             | files : option (list File) |- _ => destruct files as [[|? ?]|]
             end.
    all: cbn -[count]; rewrite ?count_app; cbn.
    all: destruct (loading (cells c)); destruct (uploading (cells c)).
    all: cbn; intros; try discriminate; try (split; lia).
Qed.

(** C4, as the code has it.  The guard is the pair of busy flags read by
    the controls: on every reachable client at most one of [handleInit]
    and [handleSend] is awaiting its call, and that is exactly when
    [loading] is set; at most one [handleUpload] is awaiting its call,
    exactly when [uploading] is set; a submission (of a message or of the
    setup form) is accepted only when no such handler is waiting, and a
    file selection only when no upload is. *)
Theorem C4_one_holder_per_busy_flag (c : Client) :
  reachable c ->
  count holds_loading (inflight c) <= 1 /\
  count holds_uploading (inflight c) <= 1 /\
  (loading (cells c) = true <-> count holds_loading (inflight c) = 1) /\
  (uploading (cells c) = true <-> count holds_uploading (inflight c) = 1) /\
  (forall c' effs, exec c (User SubmitMessage) = Some (c', effs) ->
     count holds_loading (inflight c) = 0) /\
  (forall c' effs, exec c (User SubmitSetup) = Some (c', effs) ->
     count holds_loading (inflight c) = 0) /\
  (forall files c' effs, exec c (User (SelectFiles files)) = Some (c', effs) ->
     count holds_uploading (inflight c) = 0).
Proof.
  intros H. destruct (flags_count_holders H) as [Hl Hu].
  repeat match goal with |- _ /\ _ => split end.
  - rewrite Hl. destruct (loading (cells c)); lia.
  - rewrite Hu. destruct (uploading (cells c)); lia.
  - rewrite Hl. destruct (loading (cells c)); split; congruence.
  - rewrite Hu. destruct (uploading (cells c)); split; congruence.
  - intros c' effs Hx. apply exec_inv in Hx.
    destruct Hx as [(e & v & He & _ & Hr & Hen & _)|(? & ? & ? & ? & ? & Hd & _)];
      [|discriminate]. injection He as <-.
    destruct v as [v|v]; simpl in Hen; [discriminate|].
    apply render_chat_inv in Hr.
    destruct Hr as (_ & msgs & _ & _ & Hsd & _). rewrite Hsd in Hen.
    rewrite Hl. now destruct (loading (cells c)).
  - intros c' effs Hx. apply exec_inv in Hx.
    destruct Hx as [(e & v & He & _ & Hr & Hen & _)|(? & ? & ? & ? & ? & Hd & _)];
      [|discriminate]. injection He as <-.
    destruct v as [v|v]; simpl in Hen; [|discriminate].
    apply render_setup_inv in Hr. destruct Hr as (_ & Hld & _).
    rewrite Hld in Hen. rewrite Hl. now destruct (loading (cells c)).
  - intros files c' effs Hx. apply exec_inv in Hx.
    destruct Hx as [(e & v & He & _ & Hr & Hen & _)|(? & ? & ? & ? & ? & Hd & _)];
      [|discriminate]. injection He as <-.
    destruct v as [v|v]; simpl in Hen; [discriminate|].
    apply render_chat_inv in Hr.
    destruct Hr as (_ & msgs & _ & _ & _ & Hud & _). rewrite Hud in Hen.
    rewrite Hu. now destruct (uploading (cells c)).
Qed.

Lemma C4_one_holder_per_busy_flag_witness :
  count holds_loading (inflight overlap_client) <= 1 /\
  count holds_uploading (inflight overlap_client) <= 1.
Proof.
  assert (H : reachable overlap_client)
    by (exists send_then_upload; vm_compute; reflexivity).
  destruct (C4_one_holder_per_busy_flag H) as [H1 [H2 _]].
  split; [exact H1 | exact H2].
Defined.

(** C4, as stated, fails: after a submission, the file input is still
    enabled (it reads [uploading] only), so a chat call and an upload call
    are in flight together. *)
Lemma C4_send_and_upload_overlap :
  run mounted send_then_upload = Some overlap_client /\
  map snd (backend_calls overlap_client) = [KHandleSend; KHandleUpload] /\
  ~ one_call_at_a_time overlap_client.
Proof.
  split; [vm_compute; reflexivity|]. split; [vm_compute; reflexivity|].
  unfold one_call_at_a_time.
  replace (List.length (backend_calls overlap_client)) with 2
    by (vm_compute; reflexivity).
  lia.
Qed.

(** ** The initialized flag *)

Lemma exec_keeps_initialized (c : Client) (l : Label) (c' : Client)
    (effs : list Effect) :
  exec c l = Some (c', effs) ->
  initialized (cells c) = true -> initialized (cells c') = true.
Proof.
  intros Hx Hi. step_cases Hx.
  all: unfold handleSend_begin, handleUpload_begin, checkState_resolved;
    segments; cbn [cells inflight fst snd].
  all: try match goal with
           | |- context [truthy (trim ?x)] => destruct (truthy (trim x))
           | |- context [st_initialized ?r] => destruct (st_initialized r)
           | |- context [nth_error (or_empty ?m) ?i] =>
               destruct (nth_error (or_empty m) i)
           | files : option (list File) |- _ => destruct files as [[|? ?]|]
           end.
  all: cbn; try reflexivity; exact Hi.
Qed.

Lemma run_keeps_initialized (c : Client) (tr : list Label) (c' : Client) :
  run c tr = Some c' ->
  initialized (cells c) = true -> initialized (cells c') = true.
Proof.
  revert c; induction tr as [|l tr IH]; intros c Hr Hi; simpl in Hr.
  - now injection Hr as <-.
  - destruct (exec c l) as [[c1 effs]|] eqn:Hx; [|discriminate].
    eapply IH; [exact Hr|]. eapply exec_keeps_initialized; eauto.
Qed.

(** The Refresh button exists in the chat view only. *)
Lemma refresh_needs_session (c : Client) :
  reachable c -> refresh_waiting c -> initialized (cells c) = true.
Proof.
  intros H. induction H as [|c l c' effs _ IH Hx] using reachable_ind.
  - intros [req [Hin|[]]]. discriminate.
  - intros [req0 Hin].
    destruct (initialized (cells c)) eqn:Hi0.
    { eapply exec_keeps_initialized; eauto. }
    assert (Hno : forall r, ~ In (r, KCheckState FromRefresh) (inflight c)).
    { intros r Hr. assert (true = false) by (rewrite <- IH; [reflexivity|];
        now exists r). discriminate. }
    clear IH. revert Hin. step_cases Hx.
    all: try (apply render_chat_inv in Hr; destruct Hr as (Hi & _);
              congruence).
    all: unfold handleSend_begin, handleUpload_begin, checkState_resolved;
      segments; cbn [cells inflight fst snd].
    all: try match goal with
             | |- context [truthy (trim ?x)] => destruct (truthy (trim x))
             | |- context [st_initialized ?r] => destruct (st_initialized r)
             | |- context [nth_error (or_empty ?m) ?i] =>
                 destruct (nth_error (or_empty m) i)
             | files : option (list File) |- _ => destruct files as [[|? ?]|]
             end.
    all: cbn; try reflexivity.
    all: intros Hin; apply in_app_or in Hin as [Hin|Hin];
      try (apply In_remove_nth in Hin); try (now apply Hno in Hin).
    all: cbn in Hin; repeat destruct Hin as [Hin|Hin]; try discriminate;
      try contradiction.
Qed.

Lemma flips_after_initialized (c : Client) (tr : list Label) :
  initialized (cells c) = true -> flips c tr = 0.
Proof.
  revert c; induction tr as [|l tr IH]; intros c Hi; simpl; [reflexivity|].
  destruct (exec c l) as [[c' effs]|] eqn:Hx; [|reflexivity].
  rewrite Hi. simpl. apply IH. eapply exec_keeps_initialized; eauto.
Qed.

Lemma flips_at_most_once (c : Client) (tr : list Label) : flips c tr <= 1.
Proof.
  revert c; induction tr as [|l tr IH]; intros c; simpl; [lia|].
  destruct (exec c l) as [[c' effs]|] eqn:Hx; [|lia].
  destruct (initialized (cells c')) eqn:Hi'.
  - rewrite (flips_after_initialized c' tr Hi').
    destruct (negb (initialized (cells c))); simpl; lia.
  - rewrite andb_false_r. simpl. apply IH.
Qed.

(** C7.  The initialized cell starts false; no step of the client takes
    it from true to false, so along any run it stays true once it is; it
    goes from false to true at most once; and the step that sets it is a
    state fetch resolving with [initialized] true, the fetch having been
    started by the mount effect or by [handleInit] after a successful init
    call. *)
Theorem C7_initialized_is_monotonic :
  initialized initial_state = false /\
  initialized (cells mounted) = false /\
  (forall c l c' effs,
     exec c l = Some (c', effs) ->
     initialized (cells c) = true -> initialized (cells c') = true) /\
  (forall c tr c',
     run c tr = Some c' ->
     initialized (cells c) = true -> initialized (cells c') = true) /\
  (forall tr, flips mounted tr <= 1) /\
  (forall c l c' effs,
     reachable c -> exec c l = Some (c', effs) ->
     initialized (cells c) = false -> initialized (cells c') = true ->
     exists idx res caller,
       l = Settle idx (Resolved (StateBody res)) /\
       st_initialized res = true /\
       (exists req, nth_error (inflight c) idx = Some (req, KCheckState caller)) /\
       (caller = FromMount \/ caller = FromInit)).
Proof.
  split; [reflexivity|]. split; [reflexivity|].
  split; [exact exec_keeps_initialized|].
  split; [exact run_keeps_initialized|].
  split; [intros tr; apply flips_at_most_once|].
  intros c l c' effs Hreach Hx Hi Hi'.
  pose proof (refresh_needs_session Hreach) as Hrf.
  revert Hi'. step_cases Hx.
  all: unfold handleSend_begin, handleUpload_begin, checkState_resolved;
    segments; cbn [cells inflight fst snd].
  all: try match goal with
           | |- context [truthy (trim ?x)] => destruct (truthy (trim x))
           | |- context [st_initialized ?r] => destruct (st_initialized r) eqn:Hsi
           | |- context [nth_error (or_empty ?m) ?i] =>
               destruct (nth_error (or_empty m) i)
           | files : option (list File) |- _ => destruct files as [[|? ?]|]
           end.
  all: cbn; intros Hi'; try congruence.
  - exists idx, res, FromMount. repeat split; eauto.
  - exfalso. assert (initialized (cells c) = true); [|congruence].
    apply Hrf. exists req. eapply nth_error_In; eauto.
  - exists idx, res, FromInit. repeat split; eauto.
Qed.

Lemma C7_initialized_is_monotonic_witness :
  exists c', run mounted session_up = Some c' /\ initialized (cells c') = true /\
    forall tr c'', run c' tr = Some c'' -> initialized (cells c'') = true.
Proof.
  eexists. split; [vm_compute; reflexivity|]. split; [reflexivity|].
  intros tr c'' Hr.
  exact (proj1 (proj2 (proj2 (proj2 C7_initialized_is_monotonic)))
           _ tr c'' Hr eq_refl).
Defined.

(** ** Where the displayed list comes from *)

Lemma sources_snoc (tr : list Label) (l : Label) :
  sources (tr ++ [l]) = sources tr ++ returned l.
Proof.
  unfold sources. rewrite flat_map_app. simpl. now rewrite app_nil_r.
Qed.

Lemma sources_grow (tr : list Label) (l : Label) (v : JsMsgs) :
  In v (sources tr) -> In v (sources (tr ++ [l])).
Proof. rewrite sources_snoc. intros H. apply in_or_app. now left. Qed.

Lemma sources_last (tr : list Label) (l : Label) (v : JsMsgs) :
  In v (returned l) -> In v (sources (tr ++ [l])).
Proof. rewrite sources_snoc. intros H. apply in_or_app. now right. Qed.

Lemma bto_grow (tr : list Label) (l : Label) (v : JsMsgs) :
  backend_then_optimistic tr v -> backend_then_optimistic (tr ++ [l]) v.
Proof.
  destruct v as [msgs|]; simpl.
  - intros (b & opt & Hb & Ho & ->). exists b, opt.
    split; [now apply sources_grow | now split].
  - apply sources_grow.
Qed.

Lemma bto_source (tr : list Label) (v : JsMsgs) :
  In v (sources tr) -> backend_then_optimistic tr v.
Proof.
  destruct v as [msgs|]; simpl; [|tauto].
  intros H. exists msgs, []. split; [exact H|]. split; [constructor|].
  now rewrite app_nil_r.
Qed.

Lemma bto_empty (tr : list Label) : backend_then_optimistic tr (Some []).
Proof. apply bto_source. now left. Qed.

Lemma bto_append (tr : list Label) (m : Message) (v : JsMsgs) :
  user_entry m -> backend_then_optimistic tr v ->
  backend_then_optimistic tr (spread_append m v).
Proof.
  intros Hm. destruct v as [msgs|]; simpl; [|tauto].
  intros (b & opt & Hb & Ho & ->). exists b, (opt ++ [m]).
  split; [exact Hb|]. split.
  - apply Forall_app. split; [exact Ho | now constructor].
  - now rewrite app_assoc.
Qed.

(** The messages cell along a run: a value the backend returned (or the
    empty list), followed by the entries of the submissions made since. *)
Lemma messages_backend_then_optimistic (tr : list Label) (c : Client) :
  run mounted tr = Some c ->
  backend_then_optimistic tr (messages (cells c)).
Proof.
  revert tr c. apply run_ind.
  - apply bto_empty.
  - intros tr c l c' effs _ IH Hx.
    apply (bto_grow tr l) in IH. revert IH.
    assert (Hlast : forall v, In v (returned l) ->
                      backend_then_optimistic (tr ++ [l]) v)
      by (intros v Hv; apply bto_source; now apply sources_last).
    revert Hlast. generalize (tr ++ [l]) as tr'. intros tr'.
    step_cases Hx.
    all: unfold handleSend_begin, handleUpload_begin, checkState_resolved;
      segments; cbn [cells inflight fst snd returned].
    all: try match goal with
             | |- context [truthy (trim ?x)] =>
                 destruct (truthy (trim x)) eqn:Htr
             | |- context [st_initialized ?r] => destruct (st_initialized r)
             | |- context [nth_error (or_empty ?m) ?i] =>
                 destruct (nth_error (or_empty m) i)
             | files : option (list File) |- _ => destruct files as [[|? ?]|]
             end.
    all: cbn -[backend_then_optimistic]; intros Hlast IH; try exact IH.
    + apply bto_append; [|exact IH]. split; [reflexivity|].
      cbn [content]. intros E. rewrite E in Htr. discriminate.
    + apply bto_empty.
    + apply Hlast. now left.
    + apply Hlast. now left.
    + apply Hlast. now left.
    + apply Hlast. now left.
Qed.

(** C3, as the code has it.  On every reachable client the messages cell
    is a value the backend returned ([messages || []] of a state body,
    [messages] of a chat body) or the empty list the client starts from and
    the Clear button restores, followed by zero or more entries
    [{role:'user', content}] of submissions that passed the guard of
    [handleSend]; such an entry stays until a later backend value replaces
    the list. *)
Theorem C3_displayed_is_backend_then_optimistic (tr : list Label) (c : Client) :
  run mounted tr = Some c ->
  backend_then_optimistic tr (messages (cells c)) /\
  (forall msgs, messages (cells c) = Some msgs ->
     exists b opt, In (Some b) (sources tr) /\ msgs = b ++ opt /\
       Forall (fun m => role m = lit "user" /\ trim (content m) <> []) opt) /\
  (messages (cells c) = None -> In None (flat_map returned tr)).
Proof.
  intros Hr. pose proof (messages_backend_then_optimistic tr Hr) as H.
  split; [exact H|]. split.
  - intros msgs Hm. rewrite Hm in H. destruct H as (b & opt & Hb & Ho & ->).
    exists b, opt. repeat split; assumption.
  - intros Hm. rewrite Hm in H. simpl in H. destruct H as [H|H];
      [discriminate | exact H].
Qed.

Lemma C3_displayed_is_backend_then_optimistic_witness :
  backend_then_optimistic two_failed_sends (messages (cells stale_client)).
Proof.
  assert (Hr : run mounted two_failed_sends = Some stale_client)
    by (vm_compute; reflexivity).
  exact (proj1 (C3_displayed_is_backend_then_optimistic two_failed_sends Hr)).
Defined.

(** C3, as stated, fails: two submissions whose chat calls are both
    rejected leave two client-synthesized entries on screen, with nothing
    in flight, while the backend has returned only the empty list. *)
Lemma C3_two_unconfirmed_entries :
  run mounted two_failed_sends = Some stale_client /\
  inflight stale_client = [] /\
  messages (cells stale_client) =
    Some [hello; {| role := lit "user"; content := lit "again" |}] /\
  Ready (cells stale_client) /\
  ~ backend_or_one_optimistic two_failed_sends (messages (cells stale_client)).
Proof.
  split; [vm_compute; reflexivity|]. split; [vm_compute; reflexivity|].
  split; [vm_compute; reflexivity|].
  split; [eexists; split; vm_compute; reflexivity|].
  replace (messages (cells stale_client))
    with (Some [hello; {| role := lit "user"; content := lit "again" |}])
    by (vm_compute; reflexivity).
  unfold backend_or_one_optimistic.
  replace (sources two_failed_sends) with [Some (@nil Message); Some []]
    by (vm_compute; reflexivity).
  intros [H | (b & m & Hb & _ & He)].
  - simpl in H. destruct H as [H|[H|[]]]; discriminate.
  - simpl in Hb. destruct Hb as [Hb|[Hb|[]]]; injection Hb as <-;
      simpl in He; discriminate.
Qed.

(** * Further properties of the handlers *)

Lemma has_text_forallb (s : jsstring) :
  has_text s = negb (forallb is_ws s).
Proof.
  unfold has_text. induction s as [|c s IH]; simpl; [reflexivity|].
  rewrite IH. now destruct (is_ws c).
Qed.

Lemma has_text_iff (s : jsstring) : trim s <> [] <-> has_text s = true.
Proof.
  rewrite has_text_forallb, trim_nil_iff.
  destruct (forallb is_ws s); simpl; split; congruence.
Qed.

(** X1.  [handleSend] starts its chat call exactly when the input has a
    code unit that is no white space, and starts none otherwise.  The body
    it posts, and the content of the optimistic entry, is the input as
    typed, not the trimmed text; the input box is emptied and the loading
    flag set. *)
Theorem X1_send_posts_untrimmed_input (s : State) :
  (has_text (input s) = true <->
     network_calls (snd (handleSend_begin s)) = [PostChat (input s)]) /\
  (has_text (input s) = false <->
     network_calls (snd (handleSend_begin s)) = []) /\
  (has_text (input s) = true ->
     messages (fst (handleSend_begin s)) =
       spread_append {| role := lit "user"; content := input s |} (messages s) /\
     input (fst (handleSend_begin s)) = [] /\
     loading (fst (handleSend_begin s)) = true).
Proof.
  destruct (has_text (input s)) eqn:H.
  - assert (Ht : trim (input s) <> []) by now apply has_text_iff.
    rewrite (handleSend_begin_text s Ht). cbn.
    repeat split; try reflexivity; discriminate.
  - assert (Ht : trim (input s) = []).
    { destruct (trim (input s)) eqn:E; [reflexivity|].
      assert (has_text (input s) = true)
        by (apply has_text_iff; rewrite E; discriminate).
      congruence. }
    rewrite (handleSend_begin_blank s Ht). cbn.
    repeat split; try reflexivity; discriminate.
Qed.

Lemma X1_send_posts_untrimmed_input_witness :
  messages (fst (handleSend_begin sample_padded)) =
    Some [{| role := lit "user"; content := lit "  hi " |}] /\
  input (fst (handleSend_begin sample_padded)) = [] /\
  loading (fst (handleSend_begin sample_padded)) = true.
Proof.
  exact (proj2 (proj2 (X1_send_posts_untrimmed_input sample_padded)) eq_refl).
Defined.

(** X2.  The text of a submission whose chat call fails is not put back
    into the input box: after the rejection the box is empty and still
    enabled, and the text survives only as the content of the entry that
    [handleSend] appended. *)
Theorem X2_failed_send_loses_the_draft (c : Client) (msgs : list Message)
    (err : AxiosError) :
  alive c = true -> Ready (cells c) -> messages (cells c) = Some msgs ->
  has_text (input (cells c)) = true ->
  exists c1 effs1 c2 effs2 v,
    exec c (User SubmitMessage) = Some (c1, effs1) /\
    exec c1 (Settle (List.length (inflight c)) (Rejected err)) = Some (c2, effs2) /\
    input (cells c2) = [] /\
    render (cells c2) = Some (VChat v) /\
    input_value v = [] /\ input_disabled v = false /\
    rows v = map renderMessage msgs ++
      [renderMessage {| role := lit "user"; content := input (cells c) |}].
Proof.
  intros Ha HR Hm Hh. assert (Ht : trim (input (cells c)) <> [])
    by now apply has_text_iff.
  destruct (Ready_can_submit HR) as [v [Hr He]].
  destruct (Ready_inv HR) as [Hi [_ [Hu _]]].
  do 5 eexists. split.
  - unfold exec. rewrite Ha, Hr, He. reflexivity.
  - unfold after, handle. rewrite (handleSend_begin_text (cells c) Ht).
    cbn [fst snd cells inflight awaits]. split.
    + unfold exec. cbn [inflight]. rewrite nth_error_snoc.
      cbn [settle]. rewrite remove_nth_snoc. reflexivity.
    + cbn. unfold render. cbn. rewrite Hi, Hm. cbn.
      split; [reflexivity|]. split; [reflexivity|].
      split; [reflexivity|]. split; [reflexivity|].
      now rewrite map_app.
Qed.

Lemma X2_failed_send_loses_the_draft_witness :
  exists c1 effs1 c2 effs2,
    exec typed_client (User SubmitMessage) = Some (c1, effs1) /\
    exec c1 (Settle 0 (Rejected network_error)) = Some (c2, effs2) /\
    input (cells c2) = [].
Proof.
  assert (HR : Ready (cells typed_client))
    by (eexists; split; vm_compute; reflexivity).
  destruct (@X2_failed_send_loses_the_draft typed_client [] network_error
              eq_refl HR eq_refl eq_refl)
    as (c1 & effs1 & c2 & effs2 & v & H1 & H2 & H3 & _).
  exists c1, effs1, c2, effs2. repeat split; assumption.
Defined.

(** ** When the view fails *)

Lemma exec_keeps_dead (c : Client) (l : Label) (c' : Client)
    (effs : list Effect) :
  exec c l = Some (c', effs) -> alive c = false -> alive c' = false.
Proof.
  intros Hx Hd. apply exec_inv in Hx.
  destruct Hx as [(e & v & _ & Ha & _)|(idx & o & req & k & act & _ & _ & _ & Hc)].
  - congruence.
  - unfold after in Hc. injection Hc as -> _. cbn. now rewrite Hd.
Qed.

Lemma run_keeps_dead (c : Client) (tr : list Label) (c' : Client) :
  run c tr = Some c' -> alive c = false -> alive c' = false.
Proof.
  revert c; induction tr as [|l tr IH]; intros c Hr Hd; simpl in Hr.
  - now injection Hr as <-.
  - destruct (exec c l) as [[c1 effs]|] eqn:Hx; [|discriminate].
    eapply IH; [exact Hr|]. eapply exec_keeps_dead; eauto.
Qed.

(** X3.  [handleSend] stores [res.data.messages] as it comes, without the
    [|| []] of [checkState]: when a chat body has no [messages], the cell
    becomes undefined, the chat view (which reads [messages.length]) can no
    longer render, and from then on no control of the page accepts an
    event, whatever settles later. *)
Theorem X3_chat_body_without_messages_breaks_the_view (c : Client) (idx : nat)
    (req : Request) (res : ChatData) :
  initialized (cells c) = true ->
  nth_error (inflight c) idx = Some (req, KHandleSend) ->
  chat_messages res = None ->
  exists c' effs,
    exec c (Settle idx (Resolved (ChatBody res))) = Some (c', effs) /\
    messages (cells c') = None /\
    render (cells c') = None /\
    alive c' = false /\
    forall tr c'' e, run c' tr = Some c'' -> exec c'' (User e) = None.
Proof.
  intros Hi Hn Hm. do 2 eexists. split.
  - unfold exec. rewrite Hn. cbn [settle]. reflexivity.
  - unfold after. cbn. rewrite Hm. unfold renders, render. cbn. rewrite Hi.
    cbn. split; [reflexivity|]. split; [reflexivity|].
    split; [apply andb_false_r|].
    intros tr c'' e Hr. apply run_keeps_dead in Hr; [|apply andb_false_r].
    unfold exec. now rewrite Hr.
Qed.

Lemma X3_chat_body_without_messages_breaks_the_view_witness :
  exists c1 effs1 c2 effs2,
    exec typed_client (User SubmitMessage) = Some (c1, effs1) /\
    exec c1 (Settle 0 (Resolved (ChatBody chat_bare))) = Some (c2, effs2) /\
    alive c2 = false.
Proof.
  eexists. eexists. 
  destruct (@X3_chat_body_without_messages_breaks_the_view
              (fst (after typed_client (inflight typed_client)
                      (handle SubmitMessage (cells typed_client))))
              0 (PostChat (lit "hello")) chat_bare eq_refl eq_refl eq_refl)
    as (c2 & effs2 & H1 & _ & _ & H4 & _).
  exists c2, effs2. split; [vm_compute; reflexivity|].
  split; [exact H1 | exact H4].
Defined.




(** ** What stays once it is set *)

(** The tests inside the segments. *)
Ltac split_guards :=
  unfold handleSend_begin, handleUpload_begin, checkState_resolved;
  segments; cbn [cells inflight fst snd];
  try match goal with
      | |- context [truthy (trim ?x)] => destruct (truthy (trim x)) eqn:?
      | |- context [st_initialized ?r] => destruct (st_initialized r) eqn:?
      | |- context [nth_error (or_empty ?m) ?i] =>
          destruct (nth_error (or_empty m) i) eqn:?
      | files : option (list File) |- _ => destruct files as [[|? ?]|]
      end.

Lemma exec_keeps_error (c : Client) (l : Label) (c' : Client)
    (effs : list Effect) :
  exec c l = Some (c', effs) ->
  truthy (errorMessage (cells c)) = true ->
  truthy (errorMessage (cells c')) = true.
Proof.
  intros Hx He0. step_cases Hx.
  all: split_guards.
  all: cbn; try reflexivity; exact He0.
Qed.

(** X5.  No handler ever empties the error message: once a failure has
    set it, it stays set along every run, and since [renderStatus] tests it
    first, every chat view rendered from then on shows an error banner, not
    the status text of a later success nor the busy notice. *)
Theorem X5_error_banner_is_never_cleared (c : Client) (tr : list Label)
    (c' : Client) :
  truthy (errorMessage (cells c)) = true ->
  run c tr = Some c' ->
  truthy (errorMessage (cells c')) = true /\
  forall v, render (cells c') = Some (VChat v) ->
    banner v = Some (BannerError (errorMessage (cells c'))).
Proof.
  intros He Hr.
  assert (H : truthy (errorMessage (cells c')) = true).
  { revert c He Hr. induction tr as [|l tr IH]; intros c He Hr; simpl in Hr.
    - now injection Hr as <-.
    - destruct (exec c l) as [[c1 effs]|] eqn:Hx; [|discriminate].
      eapply IH; [|exact Hr]. eapply exec_keeps_error; eauto. }
  split; [exact H|]. intros v Hv. apply render_chat_inv in Hv.
  destruct Hv as (_ & msgs & _ & _ & _ & _ & _ & _ & Hb).
  rewrite Hb. unfold renderStatus. now rewrite H.
Qed.

Lemma X5_error_banner_is_never_cleared_witness :
  exists c', run stale_client
               [User (ChangeInput (lit "hello")); User SubmitMessage;
                Settle 0 (Resolved (ChatBody chat_reply))] = Some c' /\
    statusMessage (cells c') = lit "Response received." /\
    forall v, render (cells c') = Some (VChat v) ->
      banner v = Some (BannerError (lit "Message failed. Please try again.")).
Proof.
  eexists. split; [vm_compute; reflexivity|]. split; [reflexivity|].
  apply (@X5_error_banner_is_never_cleared stale_client
           [User (ChangeInput (lit "hello")); User SubmitMessage;
            Settle 0 (Resolved (ChatBody chat_reply))]).
  - vm_compute; reflexivity.
  - vm_compute; reflexivity.
Defined.

Lemma exec_keeps_config (c : Client) (l : Label) (c' : Client)
    (effs : list Effect) :
  exec c l = Some (c', effs) ->
  initialized (cells c) = true -> config (cells c') = config (cells c).
Proof.
  intros Hx Hi. step_cases Hx.
  all: try (apply render_setup_inv in Hr; destruct Hr as (Hi0 & _);
            congruence).
  all: split_guards.
  all: cbn; reflexivity.
Qed.

(** X6.  The configuration can be edited in the setup form only: once the
    session is initialized, no event and no settling call changes the
    configuration cell. *)
Theorem X6_config_is_frozen_once_initialized (c : Client) (tr : list Label)
    (c' : Client) :
  initialized (cells c) = true ->
  run c tr = Some c' ->
  config (cells c') = config (cells c).
Proof.
  revert c. induction tr as [|l tr IH]; intros c Hi Hr; simpl in Hr.
  - now injection Hr as <-.
  - destruct (exec c l) as [[c1 effs]|] eqn:Hx; [|discriminate].
    rewrite (IH c1); [eapply exec_keeps_config; eauto| |exact Hr].
    eapply exec_keeps_initialized; eauto.
Qed.

Lemma X6_config_is_frozen_once_initialized_witness :
  config (cells stale_client) = default_config.
Proof.
  apply (@X6_config_is_frozen_once_initialized
           (fst (after mounted [] (checkState_resolved state_up initial_state)))
           (tl two_failed_sends) stale_client).
  - reflexivity.
  - vm_compute; reflexivity.
Defined.

Lemma forallb_nth_error {A} (f : A -> bool) (l : list A) (i : nat) (x : A) :
  forallb f l = true -> nth_error l i = Some x -> f x = true.
Proof.
  intros H Hn. apply nth_error_In in Hn.
  rewrite forallb_forall in H. now apply H.
Qed.

Lemma forallb_remove_nth {A} (f : A -> bool) (l : list A) (i : nat) :
  forallb f l = true -> forallb f (remove_nth i l) = true.
Proof.
  rewrite !forallb_forall. intros H x Hx. apply H.
  eapply In_remove_nth; eauto.
Qed.

(** While the setup view is shown, nothing of a session is in the cells. *)
Lemma uninitialized_cells (c : Client) :
  reachable c ->
  initialized (cells c) = false ->
  messages (cells c) = Some [] /\ input (cells c) = [] /\
  uploading (cells c) = false /\ availableAgents (cells c) = [] /\
  currentAgent (cells c) = None /\
  forallb setup_time (inflight c) = true.
Proof.
  intros H. induction H as [|c l c' effs _ IH Hx] using reachable_ind.
  - intros _. repeat split.
  - intros Hi'.
    assert (Hi : initialized (cells c) = false).
    { destruct (initialized (cells c)) eqn:E; [|reflexivity].
      rewrite (exec_keeps_initialized c l Hx E) in Hi'. discriminate. }
    destruct (IH Hi) as (Hm & Hin & Hu & Hag & Hcu & Hfl). clear IH.
    revert Hi'. step_cases Hx.
    all: try (apply render_chat_inv in Hr; destruct Hr as (Hi0 & _);
              congruence).
    all: try (pose proof (forallb_nth_error _ _ _ Hfl Hn) as Hk;
              cbn in Hk; try discriminate Hk).
    all: try (apply (@forallb_remove_nth _ setup_time _ idx) in Hfl).
    all: split_guards.
    all: cbn -[forallb]; intros Hi'; try discriminate Hi'.
    all: rewrite ?forallb_app, ?Hfl; cbn -[remove_nth].
    all: repeat split; assumption.
Qed.

(** X7.  Before the session is initialized the client holds nothing of
    one: on every reachable client with the initialized flag off, the
    message list is empty, the input is empty, no agent is known, the
    uploading flag is off, and the only calls that can be in flight are the
    mount's state fetch and those of [handleInit]. *)
Theorem X7_no_session_data_before_initialization (c : Client) :
  reachable c ->
  initialized (cells c) = false ->
  messages (cells c) = Some [] /\ input (cells c) = [] /\
  uploading (cells c) = false /\ availableAgents (cells c) = [] /\
  currentAgent (cells c) = None /\
  (forall req k, In (req, k) (inflight c) ->
     k = KCheckState FromMount \/ k = KCheckState FromInit \/ k = KHandleInit) /\
  exists v, render (cells c) = Some (VSetup v) /\ form_values v = config (cells c).
Proof.
  intros Hreach Hi.
  destruct (uninitialized_cells Hreach Hi) as (Hm & Hin & Hu & Hag & Hcu & Hfl).
  repeat split; try assumption.
  - intros req k Hk. rewrite forallb_forall in Hfl. specialize (Hfl _ Hk).
    unfold setup_time in Hfl. cbn in Hfl.
    destruct k as [[| |]| | | |]; try discriminate; tauto.
  - unfold render. rewrite Hi. cbn. eexists. split; reflexivity.
Qed.

Lemma X7_no_session_data_before_initialization_witness :
  messages (cells setup_client) = Some [] /\ inflight setup_client = [].
Proof.
  assert (Hr : reachable setup_client)
    by (exists [Settle 0 (Resolved (StateBody state_down))]; reflexivity).
  destruct (X7_no_session_data_before_initialization Hr eq_refl) as (H & _).
  split; [exact H | reflexivity].
Defined.

(** ** Opening a session *)

Lemma exec_user (c : Client) (e : UserEvent) (v : View) :
  alive c = true -> render (cells c) = Some v -> enabled v e = true ->
  exec c (User e) = Some (after c (inflight c) (handle e (cells c))).
Proof. intros Ha Hr He. unfold exec. now rewrite Ha, Hr, He. Qed.

Lemma exec_settle_last (c : Client) (q : list (Request * Continuation))
    (req : Request) (k : Continuation) (o : Outcome) (act : Act) :
  inflight c = q ++ [(req, k)] -> settle k o = Some act ->
  exec c (Settle (List.length q) o) = Some (after c q (act (cells c))).
Proof.
  intros Hq Hs. unfold exec.
  now rewrite Hq, nth_error_snoc, Hs, remove_nth_snoc.
Qed.

Lemma setup_can_launch (s : State) :
  initialized s = false -> loading s = false ->
  exists v, render s = Some (VSetup v) /\ enabled (VSetup v) SubmitSetup = true /\
            form_values v = config s.
Proof.
  intros Hi Hl. unfold render. rewrite Hi, Hl. cbn.
  eexists. split; [reflexivity|]. split; reflexivity.
Qed.

(** X8.  Submitting the setup form posts the configuration as it stands
    and sets the loading flag; when the init call resolves, [handleInit]
    fetches the state; when that fetch reports an initialized session, the
    client is Ready with the lists and the agent of the body, the status
    text says the session was initialized, and nothing is left in flight
    that was not there before. *)
Theorem X8_init_then_state_opens_the_session (c : Client) (res : StateData) :
  alive c = true -> initialized (cells c) = false ->
  loading (cells c) = false -> uploading (cells c) = false ->
  st_initialized res = true ->
  exists c1 c2 c3,
    exec c (User SubmitSetup) =
      Some (c1, [PreventDefault; Await (PostInit (config (cells c))) KHandleInit]) /\
    loading (cells c1) = true /\
    exec c1 (Settle (List.length (inflight c)) (Resolved InitBody)) =
      Some (c2, [Await GetState (KCheckState FromInit)]) /\
    loading (cells c2) = true /\ initialized (cells c2) = false /\
    exec c2 (Settle (List.length (inflight c)) (Resolved (StateBody res))) =
      Some (c3, []) /\
    Ready (cells c3) /\
    messages (cells c3) = Some (or_empty (st_messages res)) /\
    availableAgents (cells c3) = or_empty (st_available_agents res) /\
    currentAgent (cells c3) = st_agent_name res /\
    statusMessage (cells c3) = lit "Session initialized successfully." /\
    config (cells c3) = config (cells c) /\
    inflight c3 = inflight c.
Proof.
  intros Ha Hi Hl Hu Hres.
  destruct (setup_can_launch (cells c) Hi Hl) as (v & Hr & He & _).
  do 3 eexists. split; [apply (exec_user c SubmitSetup Ha Hr He)|].
  split; [reflexivity|]. split.
  { erewrite exec_settle_last; [| reflexivity | reflexivity]. reflexivity. }
  split; [reflexivity|]. split; [exact Hi|]. split.
  { erewrite exec_settle_last; [| reflexivity | reflexivity].
    unfold after, andThen. cbn [cells fst snd].
    rewrite checkState_resolved_up by exact Hres. reflexivity. }
  cbn. split.
  { eapply Ready_intro; cbn; try reflexivity. exact Hu. }
  repeat split. apply app_nil_r.
Qed.

Lemma X8_init_then_state_opens_the_session_witness :
  exists c1 c2 c3,
    exec setup_client (User SubmitSetup) =
      Some (c1, [PreventDefault; Await (PostInit default_config) KHandleInit]) /\
    exec c1 (Settle 0 (Resolved InitBody)) =
      Some (c2, [Await GetState (KCheckState FromInit)]) /\
    exec c2 (Settle 0 (Resolved (StateBody state_up))) = Some (c3, []) /\
    Ready (cells c3).
Proof.
  destruct (@X8_init_then_state_opens_the_session setup_client state_up
              eq_refl eq_refl eq_refl eq_refl eq_refl)
    as (c1 & c2 & c3 & H1 & _ & H2 & _ & _ & H3 & H4 & _).
  exists c1, c2, c3. repeat split; assumption.
Defined.

(** X9.  [handleInit] reports success as soon as the init call resolves,
    whatever the state fetch it awaits brings: when that fetch is rejected,
    or reports no initialized session, the status text still says the
    session was initialized, while the client is back at the setup view
    with the launch button enabled. *)
Theorem X9_init_reports_success_without_a_session (c : Client) (o : Outcome) :
  alive c = true -> initialized (cells c) = false -> loading (cells c) = false ->
  ((exists err, o = Rejected err) \/
   (exists res, o = Resolved (StateBody res) /\ st_initialized res = false)) ->
  exists c1 effs1 c2 effs2 c3 effs3 v,
    exec c (User SubmitSetup) = Some (c1, effs1) /\
    exec c1 (Settle (List.length (inflight c)) (Resolved InitBody)) = Some (c2, effs2) /\
    exec c2 (Settle (List.length (inflight c)) o) = Some (c3, effs3) /\
    statusMessage (cells c3) = lit "Session initialized successfully." /\
    initialized (cells c3) = false /\ loading (cells c3) = false /\
    render (cells c3) = Some (VSetup v) /\ launch_disabled v = false /\
    (forall t, ~ In (Alert t) effs3).
Proof.
  intros Ha Hi Hl Ho.
  destruct (setup_can_launch (cells c) Hi Hl) as (v & Hr & He & _).
  destruct Ho as [[err ->]|[res [-> Hres]]].
  - do 7 eexists. split; [apply (exec_user c SubmitSetup Ha Hr He)|].
    split.
    { erewrite exec_settle_last; [| reflexivity | reflexivity]. reflexivity. }
    split.
    { erewrite exec_settle_last; [| reflexivity | reflexivity]. reflexivity. }
    cbn. unfold render. cbn. rewrite Hi. cbn.
    repeat split; try reflexivity; try exact Hi.
    intros t [H|[]]; discriminate.
  - do 7 eexists. split; [apply (exec_user c SubmitSetup Ha Hr He)|].
    split.
    { erewrite exec_settle_last; [| reflexivity | reflexivity]. reflexivity. }
    split.
    { erewrite exec_settle_last; [| reflexivity | reflexivity].
      unfold after, andThen. cbn [cells fst snd].
      rewrite checkState_resolved_down by exact Hres. reflexivity. }
    cbn. unfold render. cbn. rewrite Hi. cbn.
    repeat split; try reflexivity; try exact Hi.
    intros t [].
Qed.

Lemma X9_init_reports_success_without_a_session_witness :
  exists c1 effs1 c2 effs2 c3 effs3,
    exec setup_client (User SubmitSetup) = Some (c1, effs1) /\
    exec c1 (Settle 0 (Resolved InitBody)) = Some (c2, effs2) /\
    exec c2 (Settle 0 (Rejected network_error)) = Some (c3, effs3) /\
    statusMessage (cells c3) = lit "Session initialized successfully." /\
    initialized (cells c3) = false.
Proof.
  destruct (@X9_init_reports_success_without_a_session setup_client
              (Rejected network_error) eq_refl eq_refl eq_refl
              (or_introl (ex_intro _ network_error eq_refl)))
    as (c1 & e1 & c2 & e2 & c3 & e3 & v & H1 & H2 & H3 & H4 & H5 & _).
  exists c1, e1, c2, e2, c3, e3. repeat split; assumption.
Defined.

(** X10.  When the init call is rejected, [handleInit] makes no state
    fetch: it alerts "Initialization failed: " followed by the backend's
    [detail] when there is a non-empty one and by the transport message
    otherwise, sets the error text, clears the loading flag, and leaves the
    configuration as typed, with the setup form usable again. *)
Theorem X10_init_failure_returns_to_the_form (c : Client) (err : AxiosError) :
  alive c = true -> initialized (cells c) = false -> loading (cells c) = false ->
  exists c1 effs1 c2 v,
    exec c (User SubmitSetup) = Some (c1, effs1) /\
    exec c1 (Settle (List.length (inflight c)) (Rejected err)) =
      Some (c2, [Alert (lit "Initialization failed: " ++ error_text err)]) /\
    (forall d, detail err = Some d -> d <> [] -> error_text err = d) /\
    (detail err = None \/ detail err = Some [] -> error_text err = message err) /\
    inflight c2 = inflight c /\
    loading (cells c2) = false /\ initialized (cells c2) = false /\
    config (cells c2) = config (cells c) /\
    errorMessage (cells c2) =
      lit "Initialization failed. Please verify your settings." /\
    render (cells c2) = Some (VSetup v) /\
    launch_disabled v = false /\ form_values v = config (cells c).
Proof.
  intros Ha Hi Hl.
  destruct (setup_can_launch (cells c) Hi Hl) as (v & Hr & He & _).
  do 4 eexists. split; [apply (exec_user c SubmitSetup Ha Hr He)|].
  split.
  { erewrite exec_settle_last; [| reflexivity | reflexivity]. reflexivity. }
  split.
  { intros d Hd Hne. unfold error_text, or_else. rewrite Hd.
    destruct d; [congruence | reflexivity]. }
  split.
  { intros [Hd|Hd]; unfold error_text, or_else; now rewrite Hd. }
  cbn. unfold render. cbn. rewrite Hi. cbn.
  repeat split; try reflexivity; try exact Hi. apply app_nil_r.
Qed.

Lemma X10_init_failure_returns_to_the_form_witness :
  exists c1 effs1 c2,
    exec setup_client (User SubmitSetup) = Some (c1, effs1) /\
    exec c1 (Settle 0 (Rejected port_in_use)) =
      Some (c2, [Alert (lit "Initialization failed: port in use")]).
Proof.
  destruct (@X10_init_failure_returns_to_the_form setup_client port_in_use
              eq_refl eq_refl eq_refl)
    as (c1 & e1 & c2 & v & H1 & H2 & _).
  exists c1, e1, c2. split; [exact H1 | exact H2].
Defined.

(** ** Uploading files *)

Lemma appendFiles_acc (formData : FormData) (files : list File) :
  appendFiles formData files =
    formData ++ map (fun f => (lit "files", f)) files.
Proof.
  revert formData; induction files as [|f files IH]; intros formData; simpl.
  - now rewrite app_nil_r.
  - now rewrite IH, <- app_assoc.
Qed.

Lemma chat_can_upload (s : State) :
  initialized s = true -> uploading s = false ->
  (exists msgs, messages s = Some msgs) ->
  forall files, exists v, render s = Some (VChat v) /\
    enabled (VChat v) (SelectFiles files) = true.
Proof.
  intros Hi Hu [msgs Hm] files. unfold render. rewrite Hi, Hm. cbn.
  eexists. split; [reflexivity|]. cbn. now rewrite Hu.
Qed.

(** X11.  For a non-empty selection [handleUpload] posts one form whose
    entries are the selected files, each under the field name "files", one
    per file and in the order of the selection; it starts no other call. *)
Theorem X11_upload_form_lists_the_selection (s : State) (files : list File) :
  files <> [] ->
  awaits (snd (handleUpload_begin (Some files) s)) =
    [(PostUpload (map (fun f => (lit "files", f)) files), KHandleUpload)] /\
  uploading (fst (handleUpload_begin (Some files) s)) = true /\
  (forall body, In (PostUpload body) (network_calls (snd (handleUpload_begin (Some files) s))) ->
     map snd body = files /\ List.length body = List.length files /\
     forall p, In p body -> fst p = lit "files").
Proof.
  intros Hne. destruct files as [|f fs]; [congruence|].
  unfold handleUpload_begin, andThen, emit. cbn -[appendFiles lit].
  rewrite appendFiles_acc. cbn -[lit].
  split; [reflexivity|]. split; [reflexivity|].
  intros body [Hb|[]]. injection Hb as <-. cbn -[lit]. split.
  - f_equal. rewrite map_map. cbn. now rewrite map_id.
  - split; [now rewrite length_map|].
    intros p [<-|Hp]; [reflexivity|].
    apply in_map_iff in Hp as (x & <- & _). reflexivity.
Qed.

Lemma X11_upload_form_lists_the_selection_witness :
  awaits (snd (handleUpload_begin (Some [a_file; a_file]) sample_ready)) =
    [(PostUpload [(lit "files", a_file); (lit "files", a_file)], KHandleUpload)].
Proof.
  apply (@X11_upload_form_lists_the_selection sample_ready [a_file; a_file]).
  discriminate.
Defined.

(** X12.  An upload is a round trip on the uploading flag alone: a
    non-empty selection sets the flag, and the settling of the call,
    resolved or rejected, clears it and shows an alert -- the uploaded
    names joined by ", ", or the failure text.  The conversation, the
    current agent, the input and the loading flag are as they were, and
    nothing is left in flight that was not there before. *)
Theorem X12_upload_leaves_the_conversation_alone (c : Client)
    (files : list File) (o : Outcome) :
  alive c = true -> initialized (cells c) = true -> uploading (cells c) = false ->
  (exists msgs, messages (cells c) = Some msgs) ->
  files <> [] ->
  ((exists res, o = Resolved (UploadBody res)) \/ (exists err, o = Rejected err)) ->
  exists c1 effs1 c2 effs2,
    exec c (User (SelectFiles (Some files))) = Some (c1, effs1) /\
    uploading (cells c1) = true /\
    exec c1 (Settle (List.length (inflight c)) o) = Some (c2, effs2) /\
    uploading (cells c2) = false /\
    messages (cells c2) = messages (cells c) /\
    currentAgent (cells c2) = currentAgent (cells c) /\
    input (cells c2) = input (cells c) /\
    loading (cells c2) = loading (cells c) /\
    inflight c2 = inflight c /\
    match o with
    | Resolved (UploadBody res) =>
        effs2 = [Alert (lit "Uploaded: " ++ join (lit ", ") (uploaded_files res))] /\
        statusMessage (cells c2) =
          lit "Uploaded " ++ show_nat (List.length (uploaded_files res))
            ++ lit " file(s)."
    | Rejected err =>
        effs2 = [Alert (lit "Upload failed: " ++ error_text err)] /\
        errorMessage (cells c2) = lit "Upload failed. Please retry."
    | _ => True
    end.
Proof.
  intros Ha Hi Hu Hm Hne Ho.
  destruct (chat_can_upload (cells c) Hi Hu Hm (Some files)) as (v & Hr & He).
  destruct files as [|f fs]; [congruence|].
  destruct Ho as [[res ->]|[err ->]].
  all: do 4 eexists; split;
    [apply (exec_user c (SelectFiles (Some (f :: fs))) Ha Hr He)|].
  all: split; [reflexivity|]; split;
    [erewrite exec_settle_last; [| reflexivity | reflexivity]; reflexivity|].
  all: cbn -[lit show_nat join]; repeat split; apply app_nil_r.
Qed.

Lemma X12_upload_leaves_the_conversation_alone_witness :
  exists c1 effs1 c2 effs2,
    exec stale_client (User (SelectFiles (Some [a_file]))) = Some (c1, effs1) /\
    exec c1 (Settle 0 (Resolved (UploadBody {| uploaded_files := [lit "notes.txt"] |})))
      = Some (c2, effs2) /\
    uploading (cells c2) = false /\
    messages (cells c2) = messages (cells stale_client).
Proof.
  assert (Hne : [a_file] <> []) by discriminate.
  assert (Ha : alive stale_client = true) by (vm_compute; reflexivity).
  assert (Hi : initialized (cells stale_client) = true)
    by (vm_compute; reflexivity).
  assert (Hu : uploading (cells stale_client) = false)
    by (vm_compute; reflexivity).
  assert (Hm : exists msgs, messages (cells stale_client) = Some msgs)
    by (eexists; vm_compute; reflexivity).
  assert (Hq : inflight stale_client = []) by (vm_compute; reflexivity).
  destruct (@X12_upload_leaves_the_conversation_alone stale_client [a_file]
              (Resolved (UploadBody {| uploaded_files := [lit "notes.txt"] |}))
              Ha Hi Hu Hm Hne (or_introl (ex_intro _ _ eq_refl)))
    as (c1 & e1 & c2 & e2 & H1 & _ & H2 & H3 & H4 & _).
  rewrite Hq in H2.
  exists c1, e1, c2, e2.
  split; [exact H1|]. split; [exact H2|]. split; [exact H3 | exact H4].
Defined.

(** ** Copying, refreshing, clearing *)



Lemma chat_can_refresh (s : State) :
  initialized s = true -> loading s = false ->
  (exists msgs, messages s = Some msgs) ->
  exists v, render s = Some (VChat v) /\
    enabled (VChat v) ClickRefresh = true /\
    enabled (VChat v) SubmitMessage = true.
Proof.
  intros Hi Hl [msgs Hm]. unfold render. rewrite Hi, Hm. cbn.
  eexists. split; [reflexivity|]. cbn. now rewrite Hl.
Qed.

(** X14.  Refresh replaces the conversation wholesale: when the state
    fetch started by the button resolves with an initialized session, the
    list on screen is the body's list (empty when the body has none) and
    nothing of what was shown before remains, entries of failed
    submissions included; agents and current agent are the body's too.
    The input, the flags and the configuration are untouched. *)
Theorem X14_refresh_replaces_the_conversation (c : Client) (res : StateData) :
  alive c = true -> initialized (cells c) = true -> loading (cells c) = false ->
  (exists msgs, messages (cells c) = Some msgs) ->
  st_initialized res = true ->
  exists c1 c2,
    exec c (User ClickRefresh) = Some (c1, [Await GetState (KCheckState FromRefresh)]) /\
    cells c1 = cells c /\
    exec c1 (Settle (List.length (inflight c)) (Resolved (StateBody res))) =
      Some (c2, []) /\
    displayed (cells c2) = Some (map renderMessage (or_empty (st_messages res))) /\
    availableAgents (cells c2) = or_empty (st_available_agents res) /\
    currentAgent (cells c2) = st_agent_name res /\
    input (cells c2) = input (cells c) /\
    loading (cells c2) = false /\
    uploading (cells c2) = uploading (cells c) /\
    config (cells c2) = config (cells c) /\
    inflight c2 = inflight c.
Proof.
  intros Ha Hi Hl Hm Hres.
  destruct (chat_can_refresh (cells c) Hi Hl Hm) as (v & Hr & He & _).
  do 2 eexists. split; [apply (exec_user c ClickRefresh Ha Hr He)|].
  split; [reflexivity|]. split.
  { erewrite exec_settle_last; [| reflexivity | reflexivity].
    unfold after, andThen. cbn [cells fst snd].
    rewrite checkState_resolved_up by exact Hres. reflexivity. }
  cbn. unfold displayed, render. cbn.
  repeat split; try assumption. apply app_nil_r.
Qed.

Lemma X14_refresh_replaces_the_conversation_witness :
  exists c1 c2,
    exec stale_client (User ClickRefresh) =
      Some (c1, [Await GetState (KCheckState FromRefresh)]) /\
    exec c1 (Settle 0 (Resolved (StateBody state_up))) = Some (c2, []) /\
    displayed (cells c2) = Some [].
Proof.
  assert (Ha : alive stale_client = true) by (vm_compute; reflexivity).
  assert (Hi : initialized (cells stale_client) = true)
    by (vm_compute; reflexivity).
  assert (Hl : loading (cells stale_client) = false)
    by (vm_compute; reflexivity).
  assert (Hm : exists msgs, messages (cells stale_client) = Some msgs)
    by (eexists; vm_compute; reflexivity).
  assert (Hq : inflight stale_client = []) by (vm_compute; reflexivity).
  destruct (@X14_refresh_replaces_the_conversation stale_client state_up
              Ha Hi Hl Hm eq_refl)
    as (c1 & c2 & H1 & _ & H2 & H3 & _).
  rewrite Hq in H2. exists c1, c2.
  split; [exact H1|]. split; [exact H2 | exact H3].
Defined.

(** ** Calls that overlap *)

Lemma exec_settle_at (c : Client) (idx : nat) (req : Request)
    (k : Continuation) (o : Outcome) (act : Act) :
  nth_error (inflight c) idx = Some (req, k) -> settle k o = Some act ->
  exec c (Settle idx o) =
    Some (after c (remove_nth idx (inflight c)) (act (cells c))).
Proof. intros Hn Hs. unfold exec. now rewrite Hn, Hs. Qed.

Lemma nth_error_snoc2 {A} (l : list A) (x y : A) :
  nth_error (l ++ [x; y]) (S (List.length l)) = Some y.
Proof. induction l as [|z l IH]; simpl; [reflexivity | exact IH]. Qed.

Lemma remove_nth_snoc2 {A} (l : list A) (x y : A) :
  remove_nth (S (List.length l)) (l ++ [x; y]) = l ++ [x].
Proof.
  unfold remove_nth. induction l as [|z l IH]; simpl; [reflexivity|].
  simpl in IH. now rewrite IH.
Qed.

(** X15.  Nothing orders the answers of overlapping calls: the list on
    screen is that of the call that settles last.  A Refresh clicked before
    a submission, whose state body arrives after the chat body, replaces
    the list the chat call returned by the older one of the state body. *)
Theorem X15_last_settled_call_wins (c : Client) (res : ChatData)
    (st : StateData) (l : list Message) :
  alive c = true -> Ready (cells c) -> has_text (input (cells c)) = true ->
  chat_messages res = Some l -> st_initialized st = true ->
  exists c1 effs1 c2 effs2 c3 effs3 c4 effs4,
    exec c (User ClickRefresh) = Some (c1, effs1) /\
    exec c1 (User SubmitMessage) = Some (c2, effs2) /\
    inflight c2 = inflight c ++ [(GetState, KCheckState FromRefresh);
                                 (PostChat (input (cells c)), KHandleSend)] /\
    exec c2 (Settle (S (List.length (inflight c))) (Resolved (ChatBody res)))
      = Some (c3, effs3) /\
    messages (cells c3) = Some l /\
    exec c3 (Settle (List.length (inflight c)) (Resolved (StateBody st)))
      = Some (c4, effs4) /\
    messages (cells c4) = Some (or_empty (st_messages st)) /\
    displayed (cells c4) = Some (map renderMessage (or_empty (st_messages st))) /\
    alive c4 = true /\ inflight c4 = inflight c.
Proof.
  intros Ha HR Hh Hl Hst.
  assert (Ht : trim (input (cells c)) <> []) by now apply has_text_iff.
  destruct (Ready_inv HR) as (Hi & Hld & Hu & Hm).
  destruct (chat_can_refresh (cells c) Hi Hld Hm) as (v & Hr & He & He').
  destruct Hm as [msgs Hm].
  (* the click on Refresh *)
  pose (c1 := fst (after c (inflight c) (handle ClickRefresh (cells c)))).
  assert (E1 : exec c (User ClickRefresh) =
                 Some (c1, [Await GetState (KCheckState FromRefresh)]))
    by apply (exec_user c ClickRefresh Ha Hr He).
  assert (Ha1 : alive c1 = true)
    by (cbn; unfold renders; now rewrite Ha, Hr).
  assert (Hq1 : inflight c1 = inflight c ++ [(GetState, KCheckState FromRefresh)])
    by reflexivity.
  assert (Hc1 : cells c1 = cells c) by reflexivity.
  clearbody c1.
  (* the submission *)
  pose (c2 := fst (after c1 (inflight c1) (handle SubmitMessage (cells c1)))).
  assert (E2 : exec c1 (User SubmitMessage) =
                 Some (c2, snd (handle SubmitMessage (cells c1)))).
  { rewrite <- Hc1 in Hr. apply (exec_user c1 SubmitMessage Ha1 Hr He'). }
  assert (Hb : handle SubmitMessage (cells c1) = handleSend_begin (cells c))
    by now rewrite Hc1.
  rewrite (handleSend_begin_text (cells c) Ht) in Hb.
  assert (Hq2 : inflight c2 =
            inflight c ++ [(GetState, KCheckState FromRefresh);
                           (PostChat (input (cells c)), KHandleSend)]).
  { subst c2. unfold after. cbn [fst inflight]. rewrite Hb, Hq1.
    cbn [snd awaits]. now rewrite <- app_assoc. }
  assert (Hi2 : initialized (cells c2) = true).
  { subst c2. unfold after. cbn [fst cells]. rewrite Hb. cbn. exact Hi. }
  assert (Ha2 : alive c2 = true).
  { subst c2. unfold after. cbn [fst alive cells]. rewrite Hb, Ha1.
    unfold renders, render. cbn. now rewrite Hi, Hm. }
  clearbody c2.
  (* the chat body arrives first *)
  pose (c3 := fst (after c2 (remove_nth (S (List.length (inflight c))) (inflight c2))
                     (handleSend_resolved res (cells c2)))).
  assert (E3 : exec c2 (Settle (S (List.length (inflight c))) (Resolved (ChatBody res)))
               = Some (c3, [])).
  { rewrite (@exec_settle_at c2 _ (PostChat (input (cells c))) KHandleSend
               (Resolved (ChatBody res)) (handleSend_resolved res));
      [reflexivity | rewrite Hq2; apply nth_error_snoc2 | reflexivity]. }
  assert (Hm3 : messages (cells c3) = Some l) by (cbn; exact Hl).
  assert (Hi3 : initialized (cells c3) = true) by (cbn; exact Hi2).
  assert (Hq3 : inflight c3 = inflight c ++ [(GetState, KCheckState FromRefresh)]).
  { subst c3. unfold after. cbn [fst inflight]. rewrite Hq2, remove_nth_snoc2.
    cbn. now rewrite app_nil_r. }
  assert (Ha3 : alive c3 = true).
  { subst c3. unfold after. cbn [fst alive]. rewrite Ha2.
    unfold renders, render. cbn. now rewrite Hi2, Hl. }
  clearbody c3.
  (* the state body arrives last *)
  pose (c4 := fst (after c3 (remove_nth (List.length (inflight c)) (inflight c3))
                     ((checkState_resolved st ;; after_checkState FromRefresh)
                        (cells c3)))).
  assert (Hk : (checkState_resolved st ;; after_checkState FromRefresh) (cells c3)
               = (fst (checkState_resolved st (cells c3)), [])).
  { unfold andThen. rewrite checkState_resolved_up by exact Hst. reflexivity. }
  assert (E4 : exec c3 (Settle (List.length (inflight c)) (Resolved (StateBody st)))
               = Some (c4, [])).
  { rewrite (@exec_settle_at c3 _ GetState (KCheckState FromRefresh)
               (Resolved (StateBody st))
               (checkState_resolved st ;; after_checkState FromRefresh));
      [| rewrite Hq3; apply nth_error_snoc | reflexivity].
    subst c4. unfold after. now rewrite Hk. }
  assert (Hm4 : messages (cells c4) = Some (or_empty (st_messages st))).
  { subst c4. unfold after. cbn [fst cells]. rewrite Hk. cbn [fst].
    now rewrite checkState_resolved_up by exact Hst. }
  assert (Hi4 : initialized (cells c4) = true).
  { subst c4. unfold after. cbn [fst cells]. rewrite Hk. cbn [fst].
    now rewrite checkState_resolved_up by exact Hst. }
  exists c1, [Await GetState (KCheckState FromRefresh)], c2,
    (snd (handle SubmitMessage (cells c1))), c3, [], c4, [].
  split; [exact E1|]. split; [exact E2|]. split; [exact Hq2|].
  split; [exact E3|]. split; [exact Hm3|]. split; [exact E4|].
  split; [exact Hm4|]. split.
  { unfold displayed, render. now rewrite Hi4, Hm4. }
  split.
  - subst c4. unfold after. cbn [fst alive]. rewrite Ha3.
    unfold renders, render. rewrite Hk. cbn [fst].
    rewrite checkState_resolved_up by exact Hst. reflexivity.
  - subst c4. unfold after. cbn [fst inflight]. rewrite Hq3, remove_nth_snoc, Hk.
    cbn. apply app_nil_r.
Qed.

Lemma X15_last_settled_call_wins_witness :
  exists c1 effs1 c2 effs2 c3 effs3 c4 effs4,
    exec typed_client (User ClickRefresh) = Some (c1, effs1) /\
    exec c1 (User SubmitMessage) = Some (c2, effs2) /\
    exec c2 (Settle 1 (Resolved (ChatBody chat_reply))) = Some (c3, effs3) /\
    messages (cells c3) = Some [hello; hi] /\
    exec c3 (Settle 0 (Resolved (StateBody state_up))) = Some (c4, effs4) /\
    messages (cells c4) = Some [].
Proof.
  assert (Ha : alive typed_client = true) by (vm_compute; reflexivity).
  assert (HR : Ready (cells typed_client))
    by (eexists; split; vm_compute; reflexivity).
  assert (Hh : has_text (input (cells typed_client)) = true)
    by (vm_compute; reflexivity).
  assert (Hq : inflight typed_client = []) by (vm_compute; reflexivity).
  destruct (@X15_last_settled_call_wins typed_client chat_reply state_up
              [hello; hi] Ha HR Hh eq_refl eq_refl)
    as (c1 & e1 & c2 & e2 & c3 & e3 & c4 & e4 &
        H1 & H2 & _ & H3 & H4 & H5 & H6 & _).
  rewrite Hq in H3, H5. exists c1, e1, c2, e2, c3, e3, c4, e4.
  split; [exact H1|]. split; [exact H2|]. split; [exact H3|].
  split; [exact H4|]. split; [exact H5 | exact H6].
Defined.

(** ** State bodies *)

(** X16.  [checkState] has no branch for a body that reports no
    initialized session: whoever asked (the mount effect or the Refresh
    button), such a body changes no cell.  A client whose session is up
    keeps showing its conversation; the initialized flag is not cleared. *)
Theorem X16_uninitialized_body_changes_nothing (c : Client) (idx : nat)
    (req : Request) (caller : Caller) (res : StateData) :
  nth_error (inflight c) idx = Some (req, KCheckState caller) ->
  caller <> FromInit ->
  st_initialized res = false ->
  exists c',
    exec c (Settle idx (Resolved (StateBody res))) = Some (c', []) /\
    cells c' = cells c /\
    render (cells c') = render (cells c) /\
    inflight c' = remove_nth idx (inflight c).
Proof.
  intros Hn Hc Hres.
  destruct caller; [| | congruence].
  all: eexists; split;
    [rewrite (@exec_settle_at c idx req _ (Resolved (StateBody res)) _ Hn eq_refl);
     unfold after, andThen; rewrite checkState_resolved_down by exact Hres;
     reflexivity|].
  all: cbn; repeat split; apply app_nil_r.
Qed.

Lemma X16_uninitialized_body_changes_nothing_witness :
  exists c', exec mounted (Settle 0 (Resolved (StateBody state_down))) = Some (c', []) /\
             cells c' = cells mounted.
Proof.
  assert (Hc : FromMount <> FromInit) by discriminate.
  destruct (@X16_uninitialized_body_changes_nothing mounted 0 GetState
              FromMount state_down eq_refl Hc eq_refl)
    as (c' & H1 & H2 & _).
  exists c'. split; [exact H1 | exact H2].
Defined.

(** X17.  A state body that reports an initialized session decides the
    session cells alone: whatever the messages, agents and current agent
    were, they are afterwards those of the body, so two clients that differ
    only there become equal, and applying the same body a second time
    changes nothing. *)
Theorem X17_state_body_decides_the_snapshot (res : StateData) (s s' : State) :
  st_initialized res = true ->
  config s = config s' -> loading s = loading s' -> input s = input s' ->
  uploading s = uploading s' -> statusMessage s = statusMessage s' ->
  errorMessage s = errorMessage s' ->
  checkState_resolved res s = checkState_resolved res s' /\
  checkState_resolved res (fst (checkState_resolved res s)) =
    checkState_resolved res s.
Proof.
  intros Hres Hc Hl Hi Hu Hs He.
  rewrite !checkState_resolved_up by exact Hres. cbn.
  rewrite Hc, Hl, Hi, Hu, Hs, He. split; reflexivity.
Qed.

Lemma X17_state_body_decides_the_snapshot_witness :
  checkState_resolved state_up sample_ready =
    checkState_resolved state_up
      (fst (updateMessages (fun _ => Some [hello]) sample_ready)).
Proof.
  apply (@X17_state_body_decides_the_snapshot state_up sample_ready
           (fst (updateMessages (fun _ => Some [hello]) sample_ready)));
    reflexivity.
Defined.

(** X18.  Clear view is a local operation that the busy flags do not
    gate: in any chat view it empties the list on screen without starting
    a call and without touching another cell; and when it is clicked while
    a submission is in flight, the list of the chat body is shown once the
    call resolves. *)
Theorem X18_clear_view_is_local (c : Client) (msgs : list Message) :
  alive c = true -> initialized (cells c) = true ->
  messages (cells c) = Some msgs ->
  exists c1,
    exec c (User ClickClear) = Some (c1, []) /\
    displayed (cells c1) = Some [] /\
    inflight c1 = inflight c /\ alive c1 = true /\
    loading (cells c1) = loading (cells c) /\
    uploading (cells c1) = uploading (cells c) /\
    input (cells c1) = input (cells c) /\
    currentAgent (cells c1) = currentAgent (cells c) /\
    availableAgents (cells c1) = availableAgents (cells c) /\
    forall idx req res l,
      nth_error (inflight c) idx = Some (req, KHandleSend) ->
      chat_messages res = Some l ->
      exists c2 effs2,
        exec c1 (Settle idx (Resolved (ChatBody res))) = Some (c2, effs2) /\
        displayed (cells c2) = Some (map renderMessage l).
Proof.
  intros Ha Hi Hm.
  assert (Hr : exists v, render (cells c) = Some (VChat v)).
  { unfold render. rewrite Hi, Hm. cbn. eexists. reflexivity. }
  destruct Hr as [v Hr].
  eexists. split; [apply (exec_user c ClickClear Ha Hr eq_refl)|].
  cbn. unfold displayed, renders, render. cbn. rewrite Hi, Ha. cbn.
  rewrite app_nil_r. repeat split.
  intros idx req res l Hn Hl. do 2 eexists. split.
  - unfold exec. cbn [inflight]. rewrite Hn. cbn [settle]. reflexivity.
  - cbn. rewrite Hl. reflexivity.
Qed.

Lemma X18_clear_view_is_local_witness :
  exists c1, exec stale_client (User ClickClear) = Some (c1, []) /\
             displayed (cells c1) = Some [].
Proof.
  assert (Ha : alive stale_client = true) by (vm_compute; reflexivity).
  assert (Hi : initialized (cells stale_client) = true)
    by (vm_compute; reflexivity).
  assert (Hm : messages (cells stale_client) =
                 Some [hello; {| role := lit "user"; content := lit "again" |}])
    by (vm_compute; reflexivity).
  destruct (@X18_clear_view_is_local stale_client _ Ha Hi Hm)
    as (c1 & H1 & H2 & _).
  exists c1. split; [exact H1 | exact H2].
Defined.

(** ** The earlier revision *)

(** X19.  The earlier revision keeps no trace of a failure in its cells:
    a rejected init call, and an upload however it settles, leave every
    cell exactly as it was before the event; a rejected state fetch is
    logged to the console only; and after a rejected chat call the cells
    differ from those before the submission in the appended entry and the
    emptied input alone. *)
Theorem X19_earlier_failures_leave_no_trace (s : Earlier.State) :
  (forall err, Earlier.loading s = false ->
     fst (Earlier.handleInit_rejected err (fst (Earlier.handleInit_begin s))) = s) /\
  (forall files res err, Earlier.uploading s = false -> files <> [] ->
     fst (Earlier.handleUpload_resolved res
            (fst (Earlier.handleUpload_begin (Some files) s))) = s /\
     fst (Earlier.handleUpload_rejected err
            (fst (Earlier.handleUpload_begin (Some files) s))) = s) /\
  (forall err,
     Earlier.checkState_rejected err s =
       (s, [ConsoleError (lit "Failed to check state")])) /\
  (forall err, Earlier.loading s = false -> has_text (Earlier.input s) = true ->
     fst (Earlier.handleSend_rejected err (fst (Earlier.handleSend_begin s))) =
       fst (Earlier.setInput []
         (fst (Earlier.updateMessages
            (spread_append {| role := lit "user"; content := Earlier.input s |})
            s)))).
Proof.
  destruct s as [i cfg ld ms inp ag cur up]. cbn [Earlier.loading
    Earlier.uploading Earlier.input].
  split; [|split; [|split]].
  - intros err ->. reflexivity.
  - intros files res err -> Hne. destruct files as [|f fs]; [congruence|].
    split; reflexivity.
  - intros err. reflexivity.
  - intros err -> Hh. apply has_text_iff in Hh.
    unfold Earlier.handleSend_begin, andThen, reading, emit, skip.
    cbn [Earlier.input]. destruct (trim inp) eqn:E; [congruence|].
    reflexivity.
Qed.

Lemma X19_earlier_failures_leave_no_trace_witness :
  fst (Earlier.handleInit_rejected network_error
         (fst (Earlier.handleInit_begin Earlier.initial_state)))
    = Earlier.initial_state.
Proof.
  exact (proj1 (X19_earlier_failures_leave_no_trace Earlier.initial_state)
           network_error eq_refl).
Defined.

(** X20.  In the earlier revision [handleInit] ends in the chat view when
    the state fetch it awaits reports an initialized session; when that
    fetch is rejected or reports none, the cells are exactly those before
    the form was submitted and only the console has heard of it: the setup
    form is shown again as if nothing had been done. *)
Theorem X20_earlier_init_flow (s : Earlier.State) (res : StateData) :
  Earlier.initialized s = false -> Earlier.loading s = false ->
  let s1 := fst (Earlier.handleInit_begin s) in
  awaits (snd (Earlier.handleInit_begin s)) =
    [(PostInit (Earlier.config s), KHandleInit)] /\
  Earlier.loading s1 = true /\
  (st_initialized res = true ->
     exists v,
       Earlier.render (fst (Earlier.handleInit_finish
                              (fst (Earlier.checkState_resolved res s1))))
         = Some (Earlier.VChat v) /\
       Earlier.rows v = map Earlier.renderMessage (or_empty (st_messages res)) /\
       Earlier.send_disabled v = false) /\
  (st_initialized res = false ->
     fst (Earlier.handleInit_finish (fst (Earlier.checkState_resolved res s1))) = s /\
     snd (Earlier.checkState_resolved res s1) = []) /\
  (forall err,
     fst (Earlier.handleInit_finish (fst (Earlier.checkState_rejected err s1))) = s /\
     forall t, ~ In (Alert t) (snd (Earlier.checkState_rejected err s1))).
Proof.
  destruct s as [i cfg ld ms inp ag cur up]. cbn [Earlier.initialized
    Earlier.loading Earlier.config]. intros -> ->.
  split; [reflexivity|]. split; [reflexivity|]. split; [|split].
  - intros Hres. unfold Earlier.checkState_resolved. rewrite Hres. cbn.
    eexists. split; [reflexivity|]. split; reflexivity.
  - intros Hres. unfold Earlier.checkState_resolved. rewrite Hres.
    split; reflexivity.
  - intros err. split; [reflexivity|]. cbn. intros t [H|[]]. discriminate.
Qed.

Lemma X20_earlier_init_flow_witness :
  fst (Earlier.handleInit_finish
         (fst (Earlier.checkState_resolved state_down
                 (fst (Earlier.handleInit_begin Earlier.initial_state)))))
    = Earlier.initial_state.
Proof.
  exact (proj1 (proj1 (proj2 (proj2 (proj2
           (@X20_earlier_init_flow Earlier.initial_state state_down
              eq_refl eq_refl)))) eq_refl)).
Defined.
